(** * fine-tune.py: the batch transform, the adapter switch, dataset loading
      and the train/held-out split

    The script is glue around three libraries (a tokenizer, an adapter
    wrapper and a dataset store).  What the script itself writes is embedded
    line by line; what it calls is given as a small executable model of the
    called operation, each marked as such where it is declared. *)

From Stdlib Require Import ZArith QArith.
From stdpp Require Import base option list list_numbers strings gmap.

Local Open Scope Z_scope.
Local Open Scope nat_scope.

(** ** Exceptions and results *)

(** The Python exceptions the embedded code can raise. *)
Inductive Exc : Type :=
  | KeyError
  | ValueError
  | IndexError
  | AttributeError
  | OSError
  | RuntimeError.

(** A computation either returns a value or raises. *)
Inductive result (A : Type) : Type :=
  | Ok (a : A)
  | Raise (e : Exc).
Arguments Ok {A} a.
Arguments Raise {A} e.

#[global] Instance result_ret : MRet result := fun A a => Ok a.
#[global] Instance result_bind : MBind result := fun A B f m =>
  match m with
  | Ok a => f a
  | Raise e => Raise e
  end.
#[global] Instance result_fmap : FMap result := fun A B f m =>
  match m with
  | Ok a => Ok (f a)
  | Raise e => Raise e
  end.

(** [d[k]] on a Python dict. *)
Definition getitem {V} (d : gmap string V) (k : string) : result V :=
  match d !! k with
  | Some v => Ok v
  | None => Raise KeyError
  end.

(** ** Two-dimensional integer tensors *)

Module Tensor.

(** A [LongTensor] of rank two, row by row. *)
Abbreviation t := (list (list Z)).

Definition at2 {A} (x : list (list A)) (i j : nat) : option A :=
  x !! i ≫= (.!! j).

(** The same number of rows, and rows of the same lengths.  A tensor
    without rows keeps no width in a list of rows: the tokenizer call
    returns none (an empty batch is refused), and what is stated of
    arbitrary tensors is stated of tensors with a row. *)
Definition same_shape {A B} (x : list (list A)) (y : list (list B)) : bool :=
  bool_decide (length <$> x = length <$> y).

(** [x.clone()]: a fresh tensor with the same entries. *)
Definition clone (x : t) : t := x.

(** [x == v], entry by entry. *)
Definition eq_scalar (x : t) (v : Z) : list (list bool) :=
  (fun row : list Z => (fun a => bool_decide (a = v)) <$> row) <$> x.

(** [x[m] = v] for a boolean mask [m]: the mask must have the shape of
    [x] (otherwise torch raises [IndexError]); the entries under a true
    mask bit become [v], the others stay. *)
Definition masked_assign (x : t) (m : list (list bool)) (v : Z) : result t :=
  if same_shape x m
  then Ok (zip_with (zip_with (fun a (b : bool) => if b then v else a)) x m)
  else Raise IndexError.

(** All rows have length [n]. *)
Definition rectangular (n : nat) (x : t) : Prop := Forall (fun row : list Z => length row = n) x.

End Tensor.

(** ** The tokenizer interface *)

Inductive Side : Type := LeftSide | RightSide.

Inductive PaddingStrategy : Type := LONGEST | MAX_LENGTH | DO_NOT_PAD.

(** What the script uses of a slow [PreTrainedTokenizer]: the text to ids
    map, the wrapping with special tokens, the eos and pad ids, and the
    configured sides and maximum length. *)
Record PreTrainedTokenizer : Type := {
  tokenize : string → list Z;
  build_inputs_with_special_tokens : list Z → list Z;
  eos_token_id : option Z;
  pad_token_id : option Z;
  padding_side : Side;
  truncation_side : Side;
  model_max_length : nat;
}.

Definition set_pad_token_id (tok : PreTrainedTokenizer) (p : option Z) : PreTrainedTokenizer :=
  {| tokenize := tokenize tok;
     build_inputs_with_special_tokens := build_inputs_with_special_tokens tok;
     eos_token_id := eos_token_id tok;
     pad_token_id := p;
     padding_side := padding_side tok;
     truncation_side := truncation_side tok;
     model_max_length := model_max_length tok |}.

Definition set_model_max_length (tok : PreTrainedTokenizer) (n : nat) : PreTrainedTokenizer :=
  {| tokenize := tokenize tok;
     build_inputs_with_special_tokens := build_inputs_with_special_tokens tok;
     eos_token_id := eos_token_id tok;
     pad_token_id := pad_token_id tok;
     padding_side := padding_side tok;
     truncation_side := truncation_side tok;
     model_max_length := n |}.

(** The contract every tokenizer of the library meets: special tokens add a
    fixed number of ids, and every id is a vocabulary index. *)
Record TokenizerSpec (tok : PreTrainedTokenizer) : Prop := {
  special_tokens_length : ∀ ids,
    length (build_inputs_with_special_tokens tok ids)
    = length ids + length (build_inputs_with_special_tokens tok []);
  tokenize_vocab : ∀ s, Forall (fun a => (0 ≤ a)%Z) (tokenize tok s);
  special_tokens_vocab : ∀ ids,
    Forall (fun a => (0 ≤ a)%Z) ids →
    Forall (fun a => (0 ≤ a)%Z) (build_inputs_with_special_tokens tok ids);
}.

(** The tokenizer call of the transformers library.  It is not part of the
    script: the definitions of this module are a model of it. *)
Module TokenizerCall.

Record BatchEncoding : Type := {
  input_ids : Tensor.t;
  attention_mask : Tensor.t;
}.

Definition num_special_tokens_to_add (tok : PreTrainedTokenizer) : nat :=
  length (build_inputs_with_special_tokens tok []).

(** Drop [k] ids from the side the tokenizer truncates on; a sequence
    that has no more than [k] ids is left as it is. *)
Definition truncate_sequences (tok : PreTrainedTokenizer) (ids : list Z) (k : nat) : list Z :=
  if decide (k < length ids) then
    match truncation_side tok with
    | RightSide => take (length ids - k) ids
    | LeftSide => drop k ids
    end
  else ids.

(** One text to its ids: tokenize, truncate so that the ids with their
    special tokens fit in [max_length], add the special tokens. *)
Definition prepare_for_model (tok : PreTrainedTokenizer) (truncation : bool)
    (max_length : nat) (text : string) : list Z :=
  let ids := tokenize tok text in
  let total_len := length ids + num_special_tokens_to_add tok in
  let ids :=
    if truncation && bool_decide (max_length < total_len)
    then truncate_sequences tok ids (total_len - max_length)
    else ids in
  build_inputs_with_special_tokens tok ids.

(** Pad one sequence to [n] ids with [pad] on the padding side; the mask
    is 1 on the ids of the text and 0 on the padding. *)
Definition pad_one (tok : PreTrainedTokenizer) (pad : Z) (n : nat) (ids : list Z)
    : list Z * list Z :=
  let difference := n - length ids in
  match padding_side tok with
  | RightSide => (ids ++ replicate difference pad,
                  replicate (length ids) 1%Z ++ replicate difference 0%Z)
  | LeftSide => (replicate difference pad ++ ids,
                 replicate difference 0%Z ++ replicate (length ids) 1%Z)
  end.

Definition padded_length (seqs : list (list Z)) : nat := max_list (length <$> seqs).

(** Modelled from the spec: [tokenizer(texts, padding=.., truncation=..,
    max_length=.., return_tensors="pt")] of the transformers library, which
    is not part of the script ("tokenizes text, pads to the longest sequence
    in a batch"; "Sequences will be right padded (and possibly truncated)").
    Where the spec is silent the model follows the slow tokenizers of the
    library, which line 73 selects: truncation counts the special tokens, the
    sides are those the tokenizer is configured with, and without
    [max_length] the tokenizer's [model_max_length] bounds the truncation.
    An empty batch has no [input_ids] to pad, padding without a pad token is
    refused, and rows of different lengths do not make a tensor: each raises
    [ValueError]. *)
Definition call (tok : PreTrainedTokenizer) (texts : list string)
    (padding : PaddingStrategy) (truncation : bool) (max_length : option nat)
    : result BatchEncoding :=
  let bound := default (model_max_length tok) max_length in
  let seqs := prepare_for_model tok truncation bound <$> texts in
  match texts with
  | [] => Raise ValueError
  | _ :: _ =>
    rows ←
      match padding with
      | DO_NOT_PAD => Ok ((fun ids => (ids, replicate (length ids) 1%Z)) <$> seqs)
      | LONGEST =>
        match pad_token_id tok with
        | Some pad => Ok (pad_one tok pad (padded_length seqs) <$> seqs)
        | None => Raise ValueError
        end
      | MAX_LENGTH =>
        match pad_token_id tok with
        | Some pad => Ok (pad_one tok pad bound <$> seqs)
        | None => Raise ValueError
        end
      end;
    let ids := fst <$> rows in
    let mask := snd <$> rows in
    if bool_decide (Forall (fun row => length row = length (default [] (head ids))) ids)
    then Ok {| input_ids := ids; attention_mask := mask |}
    else Raise ValueError
  end.

End TokenizerCall.

(** ** [dataset_transform] (fine-tune.py, lines 41-58) *)

(** The label the loss skips (line 52). *)
Definition IGNORE_INDEX : Z := (-100)%Z.

(** [dataset_transform(batch, tokenizer)].  The keyword argument
    [tokenizer] is always bound where the script uses the function (line
    102), so the embedding takes it as given.  The labels are a clone, so
    the assignment under the mask leaves [input_ids] as the call made them. *)
Definition dataset_transform (batch : gmap string (list string))
    (tokenizer : PreTrainedTokenizer) : result (gmap string Tensor.t) :=
  prompts ← getitem batch "prompt";
  outputs ← TokenizerCall.call tokenizer prompts LONGEST true (Some 512);
  let labels := Tensor.clone (TokenizerCall.input_ids outputs) in
  labels ← Tensor.masked_assign labels
             (Tensor.eq_scalar (TokenizerCall.attention_mask outputs) 0) IGNORE_INDEX;
  Ok (<["input_ids" := TokenizerCall.input_ids outputs]>
      (<["attention_mask" := TokenizerCall.attention_mask outputs]>
       (<["labels" := labels]> ∅))).

(** The rows the call builds for a batch: every prompt prepared with the
    bound 512 and padded to the longest of them. *)
Definition padded_rows (tok : PreTrainedTokenizer) (pad : Z) (prompts : list string)
    : list (list Z * list Z) :=
  let seqs := TokenizerCall.prepare_for_model tok true 512 <$> prompts in
  TokenizerCall.pad_one tok pad (TokenizerCall.padded_length seqs) <$> seqs.

Definition batch_length (tok : PreTrainedTokenizer) (prompts : list string) : nat :=
  TokenizerCall.padded_length (TokenizerCall.prepare_for_model tok true 512 <$> prompts).

Definition mask_label (a : Z) (b : bool) : Z := if b then IGNORE_INDEX else a.

Definition masked_labels (rows : list (list Z * list Z)) : Tensor.t :=
  zip_with (zip_with mask_label) rows.*1 (Tensor.eq_scalar rows.*2 0).

(** The length of a prompt's ids with their special tokens, before any
    truncation. *)
Definition tokenized_length (tok : PreTrainedTokenizer) (text : string) : nat :=
  length (build_inputs_with_special_tokens tok (tokenize tok text)).

(** ** Models and the low-rank adapter (fine-tune.py, lines 65-69, 80-93) *)

(** A parameter of a model: trainable when it requires gradients. *)
Record NamedParameter : Type := {
  param_name : string;
  requires_grad : bool;
}.

(** A module with the parameters it owns directly. *)
Record NNModule : Type := {
  module_name : string;
  parameters : list NamedParameter;
}.

(** A loaded model, as its [named_modules()]. *)
Abbreviation PreTrainedModel := (list NNModule).

Inductive TaskType : Type := CAUSAL_LM | SEQ_CLS | SEQ_2_SEQ_LM | TOKEN_CLS.

Record LoraConfig : Type := {
  task_type : TaskType;
  target_modules : list string;
  inference_mode : bool;
  r : nat;
  lora_alpha : nat;
  lora_dropout : Q;
}.

(** The adapter wrapper of the peft library.  It is not part of the script:
    the definitions of this module are a model of it. *)
Module Peft.

(** A module of the wrapped model: left in place, or a targeted layer that
    keeps its base layer and gains the two adapter matrices. *)
Inductive PeftModule : Type :=
  | BaseModule (m : NNModule)
  | LoraModule (base_layer : NNModule) (lora_A lora_B : NamedParameter).

Abbreviation PeftModel := (list PeftModule).

Definition ends_with (s suffix : string) : bool :=
  let n := String.length s in
  let k := String.length suffix in
  bool_decide (k ≤ n) && String.eqb (String.substring (n - k) k s) suffix.

(** A module is targeted when its name is a target or ends with a dot and
    a target. *)
Definition is_target (cfg : LoraConfig) (key : string) : bool :=
  existsb (fun target => String.eqb key target || ends_with key ("." +:+ target))
          (target_modules cfg).

Definition freeze (p : NamedParameter) : NamedParameter :=
  {| param_name := param_name p; requires_grad := false |}.

Definition freeze_module (m : NNModule) : NNModule :=
  {| module_name := module_name m; parameters := freeze <$> parameters m |}.

(** The adapter matrices are trainable unless the configuration is for
    inference. *)
Definition adapter_parameter (cfg : LoraConfig) (m : NNModule) (which : string) : NamedParameter :=
  {| param_name := module_name m +:+ "." +:+ which +:+ ".default.weight";
     requires_grad := negb (inference_mode cfg) |}.

Definition inject (cfg : LoraConfig) (m : NNModule) : PeftModule :=
  if is_target cfg (module_name m)
  then LoraModule (freeze_module m) (adapter_parameter cfg m "lora_A")
                  (adapter_parameter cfg m "lora_B")
  else BaseModule (freeze_module m).

(** Modelled from the spec: [get_peft_model(model, peft_config)] of the
    peft library, which is not part of the script ("wrap the model with a
    low-rank adapter layer targeting a named subset of weight matrices,
    freezing the base weights"; "freezes original weights and injects small
    trainable matrices into selected layers").  Where the spec is silent the
    model follows the library: the call is refused with [ValueError] when no
    module of the model is targeted. *)
Definition get_peft_model (model : PreTrainedModel) (cfg : LoraConfig) : result PeftModel :=
  if existsb (fun m => is_target cfg (module_name m)) model
  then Ok (inject cfg <$> model)
  else Raise ValueError.

Definition base_parameters_of (m : PeftModule) : list NamedParameter :=
  match m with
  | BaseModule b => parameters b
  | LoraModule b _ _ => parameters b
  end.

Definition adapter_parameters_of (m : PeftModule) : list NamedParameter :=
  match m with
  | BaseModule _ => []
  | LoraModule _ a b => [a; b]
  end.

End Peft.

(** What the variable [model] of [train] holds: the loaded model, or the
    wrapped one. *)
Inductive Model : Type :=
  | Plain (m : PreTrainedModel)
  | Wrapped (m : Peft.PeftModel).

(** The parameters that come from the loaded checkpoint. *)
Definition base_parameters (model : Model) : list NamedParameter :=
  match model with
  | Plain m => m ≫= parameters
  | Wrapped m => m ≫= Peft.base_parameters_of
  end.

(** The parameters the wrapper added. *)
Definition adapter_parameters (model : Model) : list NamedParameter :=
  match model with
  | Plain _ => []
  | Wrapped m => m ≫= Peft.adapter_parameters_of
  end.

Definition trainable (p : NamedParameter) : Prop := requires_grad p = true.

(** ** Datasets (fine-tune.py, lines 95-103) *)

Definition Row : Type := gmap string string.

(** [partial(dataset_transform, tokenizer=tokenizer)]: the only transform
    the script attaches, kept with the tokenizer it closes over. *)
Inductive Transform : Type :=
  | DatasetTransform (tokenizer : PreTrainedTokenizer).

Definition apply_transform (f : Transform) (batch : gmap string (list string))
    : result (gmap string Tensor.t) :=
  match f with
  | DatasetTransform tokenizer => dataset_transform batch tokenizer
  end.

Record Dataset : Type := {
  rows : list Row;
  format : option Transform;
}.

(** What loading returns: one dataset, or a dict of named splits. *)
Inductive DatasetObject : Type :=
  | ADataset (d : Dataset)
  | ADatasetDict (d : gmap string Dataset).

(** [key in dataset]: on a dict of splits the key test; on a single dataset
    the test walks the rows, and no row (a dict) equals a string. *)
Definition contains (key : string) (dataset : DatasetObject) : bool :=
  match dataset with
  | ADatasetDict d => bool_decide (is_Some (d !! key))
  | ADataset _ => false
  end.

(** [dataset[key]]: a split of a dict; on a single dataset a column, which
    the rows here do not provide under a split's name. *)
Definition dataset_getitem (dataset : DatasetObject) (key : string) : result DatasetObject :=
  match dataset with
  | ADatasetDict d => ADataset <$> getitem d key
  | ADataset _ => Raise KeyError
  end.

Definition with_format (f : Transform) (d : Dataset) : Dataset :=
  {| rows := rows d; format := Some f |}.

(** [dataset.set_transform(f)], in place on a dataset and on every split
    of a dict. *)
Definition set_transform (dataset : DatasetObject) (f : Transform) : DatasetObject :=
  match dataset with
  | ADataset d => ADataset (with_format f d)
  | ADatasetDict d => ADatasetDict (with_format f <$> d)
  end.

(** The split of the datasets library.  It is not part of the script: the
    definitions of this module are a model of it.  The shuffle is a
    parameter: [permutation s n] is the order in which a generator seeded
    with [s] lists the indices below [n]. *)
Module Split.

Section with_generator.
Variable permutation : Z → nat → list nat.

(** [np.random.default_rng(seed)]: the seed when one is given, otherwise
    fresh entropy of the operating system. *)
Definition default_rng (entropy : Z) (seed : option Z) : Z := default entropy seed.

(** [dataset.select(indices)]: the rows at the indices, in their order,
    with the format of the dataset; an index out of range raises. *)
Definition select (d : Dataset) (indices : list nat) : result Dataset :=
  match mapM (fun i => rows d !! i) indices with
  | Some selected => Ok {| rows := selected; format := format d |}
  | None => Raise IndexError
  end.

(** Modelled from the spec: the index lists of [train_test_split] of the
    datasets library, which is not part of the script ("Split the dataset
    into train/held-out partitions with a fixed size and seed").  Where the
    spec is silent the model follows the library: on a dataset without rows
    nothing is checked or shuffled and both lists are empty; otherwise an
    absolute [test_size] must be positive and smaller than the number of
    rows, the test indices are the first [test_size] of the shuffled order
    and the train indices the rest. *)
Definition train_test_indices (entropy : Z) (n_samples : nat) (test_size : Z)
    (seed : option Z) : result (list nat * list nat) :=
  if bool_decide (n_samples = 0) then Ok ([], [])
  else if bool_decide (Z.of_nat n_samples ≤ test_size ∨ test_size ≤ 0)%Z
  then Raise ValueError
  else
    let n_test := Z.to_nat test_size in
    let n_train := n_samples - n_test in
    if bool_decide (n_train = 0) then Raise ValueError
    else
      let order := permutation (default_rng entropy seed) n_samples in
      let test_indices := take n_test order in
      let train_indices := take n_train (drop n_test order) in
      Ok (train_indices, test_indices).

(** Modelled from the spec: [dataset.train_test_split(test_size=..,
    seed=..)].  A dataset without rows is returned as it is under both keys,
    before any check of the sizes, as the library does; otherwise the two
    selections are returned under the keys "train" and "test". *)
Definition train_test_split (entropy : Z) (d : Dataset) (test_size : Z)
    (seed : option Z) : result (gmap string Dataset) :=
  if bool_decide (length (rows d) = 0)
  then Ok (<["train" := d]> (<["test" := d]> ∅))
  else
    '(train_indices, test_indices) ←
      train_test_indices entropy (length (rows d)) test_size seed;
    train_split ← select d train_indices;
    test_split ← select d test_indices;
    Ok (<["train" := train_split]> (<["test" := test_split]> ∅)).

End with_generator.

End Split.

(** ** The run: events, the outside world, and [train] *)

Record ModelArguments : Type := {
  model_name_or_path : option string;
}.

Record DataArguments : Type := {
  data_path : option string;
}.

(** The four fields the script adds, and [output_dir] of the inherited
    ones. *)
Record TrainingArguments : Type := {
  cache_dir : option string;
  optim : string;
  training_model_max_length : nat;
  use_lora : bool;
  output_dir : string;
}.

Record Trainer : Type := {
  trainer_model : Model;
  trainer_args : TrainingArguments;
  train_dataset : Dataset;
  eval_dataset : Dataset;
  trainer_tokenizer : PreTrainedTokenizer;
  data_collator : PreTrainedTokenizer;
}.

(** The calls that leave the script, in the order they are made. *)
Inductive Event : Type :=
  | ModelFromPretrained (name cache : option string)
  | TokenizerFromPretrained (name : option string) (max_length : nat) (cache : option string)
  | EnableInputRequireGrads
  | GetPeftModel (cfg : LoraConfig)
  | PrintTrainableParameters
  | LoadFromDisk (path : option string)
  | LoadDataset (path : option string) (split : string)
  | SetTransform (f : Transform)
  | TrainTestSplit (test_size : Z) (seed : option Z)
  | TrainerTrain (trainer : Trainer)
  | TrainerSaveState (trainer : Trainer)
  | TrainerSaveModel (trainer : Trainer) (dir : string).

(** What a run finds outside the script: the hub and the disk, the entropy
    of the operating system, and what training and saving do. *)
Record World : Type := {
  hub_models : option string → option string → result PreTrainedModel;
  hub_tokenizers : option string → option string → result PreTrainedTokenizer;
  disk_datasets : option string → result DatasetObject;
  hub_datasets : option string → string → result Dataset;
  os_entropy : Z;
  training : Trainer → result unit;
  saving_state : Trainer → result unit;
  saving_model : Trainer → string → result unit;
}.

(** A run of a piece of the script: the events so far and a result. *)
Definition Run (A : Type) : Type := list Event * result A.

#[global] Instance run_ret : MRet Run := fun A a => ([], Ok a).
#[global] Instance run_bind : MBind Run := fun A B f m =>
  match m.2 with
  | Ok a => (m.1 ++ (f a).1, (f a).2)
  | Raise e => (m.1, Raise e)
  end.

(** An outside call: the event, then what the world answers. *)
Definition perform {A} (ev : Event) (answer : result A) : Run A := ([ev], answer).

(** A computation of the script itself. *)
Definition pure_step {A} (r : result A) : Run A := ([], r).

(** [try: body except: handler], the bare [except] catching every
    exception. *)
Definition try_except {A} (body handler : Run A) : Run A :=
  match body.2 with
  | Ok a => (body.1, Ok a)
  | Raise _ => (body.1 ++ handler.1, handler.2)
  end.

Section script.
Variable permutation : Z → nat → list nat.
Variable w : World.

Definition peft_config : LoraConfig :=
  {| task_type := CAUSAL_LM;
     target_modules := ["W_pack"];
     inference_mode := false;
     r := 16;
     lora_alpha := 64;
     lora_dropout := Qmake 1 10 |}.

(** Lines 65-78: the model, the tokenizer, the pad token. *)
Definition load_model_and_tokenizer (model_args : ModelArguments)
    (training_args : TrainingArguments) : Run (PreTrainedModel * PreTrainedTokenizer) :=
  model ← perform (ModelFromPretrained (model_name_or_path model_args) (cache_dir training_args))
            (hub_models w (model_name_or_path model_args) (cache_dir training_args));
  tokenizer ← perform (TokenizerFromPretrained (model_name_or_path model_args)
                         (training_model_max_length training_args) (cache_dir training_args))
                (flip set_model_max_length (training_model_max_length training_args)
                   <$> hub_tokenizers w (model_name_or_path model_args) (cache_dir training_args));
  let tokenizer := set_pad_token_id tokenizer (eos_token_id tokenizer) in
  mret (model, tokenizer).

(** Lines 80-93: the adapter switch. *)
Definition wrap_model (training_args : TrainingArguments) (model : PreTrainedModel) : Run Model :=
  if use_lora training_args then
    _ ← perform EnableInputRequireGrads (Ok ());
    model ← perform (GetPeftModel peft_config) (Peft.get_peft_model model peft_config);
    _ ← perform PrintTrainableParameters (Ok ());
    mret (Wrapped model)
  else mret (Plain model).

(** Lines 95-100: the dataset, from the disk or else from the hub. *)
Definition load_data (data_args : DataArguments) : Run DatasetObject :=
  try_except
    (dataset ← perform (LoadFromDisk (data_path data_args))
                 (disk_datasets w (data_path data_args));
     if contains "train" dataset
     then pure_step (dataset_getitem dataset "train")
     else mret dataset)
    (perform (LoadDataset (data_path data_args) "train")
       (ADataset <$> hub_datasets w (data_path data_args) "train")).

(** Lines 102-103: the transform and the split.  A dict of splits has no
    [train_test_split]. *)
Definition transform_and_split (dataset : DatasetObject) (tokenizer : PreTrainedTokenizer)
    : Run (gmap string Dataset) :=
  let f := DatasetTransform tokenizer in
  dataset ← perform (SetTransform f) (Ok (set_transform dataset f));
  match dataset with
  | ADataset d =>
      perform (TrainTestSplit 1000 (Some 42%Z))
        (Split.train_test_split permutation (os_entropy w) d 1000 (Some 42%Z))
  | ADatasetDict _ => pure_step (Raise AttributeError)
  end.

(** Lines 105-115: the trainer, training, saving. *)
Definition run_trainer (model : Model) (training_args : TrainingArguments)
    (dataset : gmap string Dataset) (tokenizer : PreTrainedTokenizer) : Run unit :=
  train_split ← pure_step (getitem dataset "train");
  test_split ← pure_step (getitem dataset "test");
  let trainer :=
    {| trainer_model := model;
       trainer_args := training_args;
       train_dataset := train_split;
       eval_dataset := test_split;
       trainer_tokenizer := tokenizer;
       data_collator := tokenizer |} in
  _ ← perform (TrainerTrain trainer) (training w trainer);
  _ ← perform (TrainerSaveState trainer) (saving_state w trainer);
  perform (TrainerSaveModel trainer (output_dir training_args))
    (saving_model w trainer (output_dir training_args)).

(** [train()], on the three parsed argument groups. *)
Definition train (model_args : ModelArguments) (data_args : DataArguments)
    (training_args : TrainingArguments) : Run unit :=
  '(model, tokenizer) ← load_model_and_tokenizer model_args training_args;
  model ← wrap_model training_args model;
  dataset ← load_data data_args;
  dataset ← transform_and_split dataset tokenizer;
  run_trainer model training_args dataset tokenizer.

End script.

Definition is_training (ev : Event) : bool :=
  match ev with
  | TrainerTrain _ | TrainerSaveState _ | TrainerSaveModel _ _ => true
  | _ => false
  end.

Definition is_remote_fetch (ev : Event) : bool :=
  match ev with
  | LoadDataset _ _ => true
  | _ => false
  end.

(** The tokenizers an event hands to the libraries. *)
Definition event_tokenizers (ev : Event) : list PreTrainedTokenizer :=
  match ev with
  | SetTransform (DatasetTransform tokenizer) => [tokenizer]
  | TrainerTrain t | TrainerSaveState t | TrainerSaveModel t _ =>
      [trainer_tokenizer t; data_collator t]
      ++ (match format (train_dataset t) with Some (DatasetTransform k) => [k] | None => [] end)
      ++ (match format (eval_dataset t) with Some (DatasetTransform k) => [k] | None => [] end)
  | _ => []
  end.

(** ** Notions the statements use *)

(** The spec's words for what a local load yields: the "train" split when
    there is one, otherwise what was loaded. *)
Definition prefer_train_split (loaded : DatasetObject) : DatasetObject :=
  match loaded with
  | ADatasetDict d =>
      match d !! "train" with
      | Some split => ADataset split
      | None => loaded
      end
  | ADataset _ => loaded
  end.

(** Line 78 as a property of a tokenizer. *)
Definition pad_is_eos (tok : PreTrainedTokenizer) : Prop :=
  pad_token_id tok = eos_token_id tok.

(** ** The transform after the tokenizer call (fine-tune.py, lines 49-58) *)

(** What [dataset_transform] does with the answer of the tokenizer, whatever
    that answer is: the clone, the assignment under the mask, the dict. *)
Definition label_outputs (outputs : TokenizerCall.BatchEncoding)
    : result (gmap string Tensor.t) :=
  let labels := Tensor.clone (TokenizerCall.input_ids outputs) in
  labels ← Tensor.masked_assign labels
             (Tensor.eq_scalar (TokenizerCall.attention_mask outputs) 0) IGNORE_INDEX;
  Ok (<["input_ids" := TokenizerCall.input_ids outputs]>
      (<["attention_mask" := TokenizerCall.attention_mask outputs]>
       (<["labels" := labels]> ∅))).

(** A tensor of [r] rows and [c] columns.  A list of rows tells its number
    of columns only when it has a row: the tokenizer call never returns a
    tensor without rows, and the statements about arbitrary tensors ask for
    one row at least. *)
Definition has_shape (r c : nat) (x : Tensor.t) : Prop :=
  length x = r ∧ Forall (fun row : list Z => length row = c) x.

(** ** Lines 49-58 over a store of tensors *)

(** Tensors as the objects they are in the script: a name stands for an
    address, [clone] makes a new object, and the assignment under a mask
    changes the object it is made on. *)
Module Store.

Record store : Type := {
  heap : gmap nat Tensor.t;
  next : nat;
}.

(** Every object of the store was allocated: its address is below [next]. *)
Definition wf (s : store) : Prop := ∀ a, is_Some (heap s !! a) → a < next s.

Definition alloc (x : Tensor.t) (s : store) : nat * store :=
  (next s, {| heap := <[next s := x]> (heap s); next := S (next s) |}).

Definition read (a : nat) (s : store) : result Tensor.t :=
  match heap s !! a with
  | Some x => Ok x
  | None => Raise RuntimeError
  end.

(** [x.clone()]: a new object with the entries of the one at [a]. *)
Definition clone (a : nat) (s : store) : result (nat * store) :=
  x ← read a s;
  Ok (alloc x s).

(** [x[m == 0] = v] on the objects at [a] and [m]: the object at [a] is
    overwritten in place; the comparison is a temporary. *)
Definition assign_where_zero (a m : nat) (v : Z) (s : store) : result store :=
  x ← read a s;
  mask ← read m s;
  x ← Tensor.masked_assign x (Tensor.eq_scalar mask 0) v;
  Ok {| heap := <[a := x]> (heap s); next := next s |}.

(** Lines 49-58, the answer of the tokenizer being the objects at [ids] and
    [mask]: the returned dict names these two objects and the new one. *)
Definition label_outputs_in_place (ids mask : nat) (s : store)
    : result (gmap string nat * store) :=
  '(labels, s) ← clone ids s;
  s ← assign_where_zero labels mask IGNORE_INDEX s;
  Ok (<["input_ids" := ids]> (<["attention_mask" := mask]> (<["labels" := labels]> ∅)), s).

(** The same lines without the clone of line 49, for comparison. *)
Definition label_outputs_aliased (ids mask : nat) (s : store)
    : result (gmap string nat * store) :=
  let labels := ids in
  s ← assign_where_zero labels mask IGNORE_INDEX s;
  Ok (<["input_ids" := ids]> (<["attention_mask" := mask]> (<["labels" := labels]> ∅)), s).

End Store.

(** ** The order of the calls of [train] (fine-tune.py, lines 61-115) *)

(** The place of a call in the text of [train], from the first to the
    last. *)
Definition stage (ev : Event) : nat :=
  match ev with
  | ModelFromPretrained _ _ => 0
  | TokenizerFromPretrained _ _ _ => 1
  | EnableInputRequireGrads => 2
  | GetPeftModel _ => 3
  | PrintTrainableParameters => 4
  | LoadFromDisk _ => 5
  | LoadDataset _ _ => 6
  | SetTransform _ => 7
  | TrainTestSplit _ _ => 8
  | TrainerTrain _ => 9
  | TrainerSaveState _ => 10
  | TrainerSaveModel _ _ => 11
  end.

(** A list of numbers that grows strictly from each entry to every later
    one. *)
Definition increasing (l : list nat) : Prop :=
  ∀ i j a b, l !! i = Some a → l !! j = Some b → i < j → a < b.

(** A run whose calls are in the order of the text and lie between two
    places of it. *)
Definition within {A} (lo hi : nat) (m : Run A) : Prop :=
  increasing (stage <$> m.1) ∧ Forall (fun ev => lo ≤ stage ev < hi) m.1.

(** The trainer that [train] builds at lines 105-112. *)
Definition make_trainer (model : Model) (training_args : TrainingArguments)
    (train_split test_split : Dataset) (tokenizer : PreTrainedTokenizer) : Trainer :=
  {| trainer_model := model;
     trainer_args := training_args;
     train_dataset := train_split;
     eval_dataset := test_split;
     trainer_tokenizer := tokenizer;
     data_collator := tokenizer |}.

(** A save call that is made only after what precedes it in the text
    returned: the state after training, the model after training and the
    state, and the model into [output]. *)
Definition saved_in_order (w : World) (output : string) (ev : Event) : Prop :=
  match ev with
  | TrainerSaveState t => training w t = Ok ()
  | TrainerSaveModel t dir => training w t = Ok () ∧ saving_state w t = Ok () ∧ dir = output
  | _ => True
  end.

(** A trainer made of what the run loaded: the arguments as parsed, one
    tokenizer for the trainer and the collator (the loaded one with the
    configured maximum length and the eos id as pad id), the loaded model,
    wrapped when [use_lora] is on, and two datasets that carry the transform
    with that tokenizer. *)
Definition trainer_built_from (w : World) (model_args : ModelArguments)
    (training_args : TrainingArguments) (t : Trainer) : Prop :=
  trainer_args t = training_args
  ∧ data_collator t = trainer_tokenizer t
  ∧ (∃ loaded,
       hub_tokenizers w (model_name_or_path model_args) (cache_dir training_args) = Ok loaded
       ∧ trainer_tokenizer t
         = set_pad_token_id
             (set_model_max_length loaded (training_model_max_length training_args))
             (eos_token_id loaded))
  ∧ (∃ model,
       hub_models w (model_name_or_path model_args) (cache_dir training_args) = Ok model
       ∧ if use_lora training_args
         then Wrapped <$> Peft.get_peft_model model peft_config = Ok (trainer_model t)
         else trainer_model t = Plain model)
  ∧ format (train_dataset t) = Some (DatasetTransform (trainer_tokenizer t))
  ∧ format (eval_dataset t) = Some (DatasetTransform (trainer_tokenizer t)).

(** The trainer of an event, when it has one. *)
Definition event_trainer (ev : Event) : option Trainer :=
  match ev with
  | TrainerTrain t | TrainerSaveState t | TrainerSaveModel t _ => Some t
  | _ => None
  end.

(** The two datasets of a trainer split the rows of [d]: together they are
    its rows in some order; and [d] has no rows, as then have both, or more
    than 1000, of which 1000 are for evaluation. *)
Definition trainer_partitions (d : Dataset) (t : Trainer) : Prop :=
  rows (train_dataset t) ++ rows (eval_dataset t) ≡ₚ rows d
  ∧ ((rows d = [] ∧ rows (train_dataset t) = [] ∧ rows (eval_dataset t) = [])
     ∨ (1000 < length (rows d)
        ∧ length (rows (eval_dataset t)) = 1000
        ∧ length (rows (train_dataset t)) = length (rows d) - 1000)).

(** ** Concrete instances *)

(** A byte-level tokenizer in the style of the default checkpoint's: every
    character is its code, [1] opens a sequence, [2] is the eos id, and no
    pad token is configured. *)
Definition byte_tokenizer : PreTrainedTokenizer :=
  {| tokenize := fun s => (fun c => Z.of_nat (Ascii.nat_of_ascii c)) <$> String.list_ascii_of_string s;
     build_inputs_with_special_tokens := fun ids => 1%Z :: ids;
     eos_token_id := Some 2%Z;
     pad_token_id := None;
     padding_side := RightSide;
     truncation_side := RightSide;
     model_max_length := 4 |}.

(** The same tokenizer after line 78. *)
Definition padded_byte_tokenizer : PreTrainedTokenizer :=
  set_pad_token_id byte_tokenizer (eos_token_id byte_tokenizer).

(** A prompt of [n] letters. *)
Definition long_prompt (n : nat) : string :=
  String.string_of_list_ascii (replicate n (Ascii.ascii_of_nat 97)).

(** The lengths of the rows of one tensor of a returned dict. *)
Definition row_lengths (out : gmap string Tensor.t) (key : string) : option (list nat) :=
  (fun x : Tensor.t => length <$> x) <$> out !! key.

Definition demo_batch : gmap string (list string) := {[ "prompt" := ["ab"; "c"; ""] ]}.

Definition demo_output : gmap string Tensor.t :=
  <["input_ids" := [[1; 97; 98]; [1; 99; 2]; [1; 2; 2]]%Z]>
  (<["attention_mask" := [[1; 1; 1]; [1; 1; 0]; [1; 0; 0]]%Z]>
   (<["labels" := [[1; 97; 98]; [1; 99; -100]; [1; -100; -100]]%Z]> ∅)).

(** A two-layer model with every weight trainable, as a checkpoint loads. *)
Definition demo_model : PreTrainedModel :=
  [ {| module_name := "model.embed_tokens";
       parameters := [ {| param_name := "weight"; requires_grad := true |} ] |};
    {| module_name := "model.layers.0.self_attn.W_pack";
       parameters := [ {| param_name := "weight"; requires_grad := true |} ] |};
    {| module_name := "model.layers.0.self_attn.o_proj";
       parameters := [ {| param_name := "weight"; requires_grad := true |} ] |} ].

Definition demo_row (text : string) : Row := {[ "prompt" := text ]}.

Definition demo_dataset (n : nat) : Dataset :=
  {| rows := replicate n (demo_row "ab"); format := None |}.

(** A shuffle that lists the indices from the last to the first. *)
Definition reverse_permutation (seed : Z) (n : nat) : list nat := reverse (seq 0 n).

(** A shuffle that depends on its seed: the indices rotated by it. *)
Definition rotating_permutation (seed : Z) (n : nat) : list nat :=
  rotate (Z.to_nat seed) (seq 0 n).

(** A world whose disk holds a dict with a train split at ["data"] and a
    single dataset at ["flat"], and whose hub holds every other path. *)
Definition demo_world (n : nat) : World :=
  {| hub_models := fun _ _ => Ok demo_model;
     hub_tokenizers := fun _ _ => Ok byte_tokenizer;
     disk_datasets := fun path =>
       if bool_decide (path = Some "data")
       then Ok (ADatasetDict {[ "train" := demo_dataset n ]})
       else if bool_decide (path = Some "flat") then Ok (ADataset (demo_dataset n))
       else Raise OSError;
     hub_datasets := fun _ _ => Ok (demo_dataset n);
     os_entropy := 7%Z;
     training := fun _ => Ok ();
     saving_state := fun _ => Ok ();
     saving_model := fun _ _ => Ok () |}.

(** A world whose disk holds, at every path, a dict with a validation split
    only. *)
Definition validation_only_world : World :=
  {| hub_models := fun _ _ => Ok demo_model;
     hub_tokenizers := fun _ _ => Ok byte_tokenizer;
     disk_datasets := fun _ => Ok (ADatasetDict {[ "validation" := demo_dataset 3 ]});
     hub_datasets := fun _ _ => Ok (demo_dataset 3);
     os_entropy := 7%Z;
     training := fun _ => Ok ();
     saving_state := fun _ => Ok ();
     saving_model := fun _ _ => Ok () |}.

(** A store that holds the ids and the mask of the demo batch at the
    addresses 0 and 1. *)
Definition demo_store : Store.store :=
  {| Store.heap := <[0 := [[1; 97; 98]; [1; 99; 2]; [1; 2; 2]]%Z]>
                   (<[1 := [[1; 1; 1]; [1; 1; 0]; [1; 0; 0]]%Z]> ∅);
     Store.next := 2 |}.

Definition demo_model_args : ModelArguments :=
  {| model_name_or_path := Some "baichuan-inc/Baichuan2-7B-Base" |}.

Definition demo_training_args (lora : bool) : TrainingArguments :=
  {| cache_dir := None;
     optim := "adamw_torch";
     training_model_max_length := 512;
     use_lora := lora;
     output_dir := "out" |}.
(** ** Facts about the tokenizer call *)

Section tokenizer_call_facts.
Import TokenizerCall.
Context (tok : PreTrainedTokenizer).

Lemma truncate_sequences_length ids k :
  k < length ids → length (truncate_sequences tok ids k) = length ids - k.
Proof.
  intros Hk. unfold truncate_sequences.
  destruct (decide (k < length ids)) as [_|]; [|lia].
  destruct (truncation_side tok).
  - by rewrite length_drop.
  - rewrite length_take. lia.
Qed.

Lemma truncate_sequences_subseteq ids k : truncate_sequences tok ids k ⊆ ids.
Proof.
  unfold truncate_sequences. destruct (decide _); [|done].
  destruct (truncation_side tok).
  - apply subseteq_drop.
  - apply subseteq_take.
Qed.

(** With fewer special tokens than the bound, a truncated sequence is the
    untruncated one capped at the bound. *)
Lemma prepare_for_model_length n text :
  TokenizerSpec tok → num_special_tokens_to_add tok < n →
  length (prepare_for_model tok true n text)
  = (length (tokenize tok text) + num_special_tokens_to_add tok) `min` n.
Proof.
  intros Hspec Hk. unfold prepare_for_model. cbn [andb].
  rewrite (special_tokens_length tok Hspec). fold (num_special_tokens_to_add tok).
  case_bool_decide as Hlt.
  - rewrite truncate_sequences_length; lia.
  - lia.
Qed.

Lemma prepare_for_model_vocab tr n text :
  TokenizerSpec tok → Forall (fun a => (0 ≤ a)%Z) (prepare_for_model tok tr n text).
Proof.
  intros Hspec. unfold prepare_for_model.
  apply (special_tokens_vocab tok Hspec).
  pose proof (tokenize_vocab tok Hspec text) as Hv.
  destruct (tr && _); [|done].
  rewrite Forall_forall in Hv |- *. intros x Hx.
  by apply Hv, (truncate_sequences_subseteq _ _ _ Hx).
Qed.

(** The bound given in the call overrides the configured maximum. *)
Lemma prepare_for_model_max_length n m tr text :
  prepare_for_model (set_model_max_length tok m) tr n text
  = prepare_for_model tok tr n text.
Proof. reflexivity. Qed.

Lemma pad_one_lengths pad n ids :
  length ids ≤ n →
  length (pad_one tok pad n ids).1 = n ∧ length (pad_one tok pad n ids).2 = n.
Proof.
  intros Hle. unfold pad_one.
  destruct (padding_side tok); cbn; rewrite !length_app, !length_replicate; lia.
Qed.

(** A padded row, position by position: under mask 1 an id of the text,
    under mask 0 the pad id; there is no other mask value. *)
Lemma pad_one_lookup pad n ids j m :
  (pad_one tok pad n ids).2 !! j = Some m →
  (m = 1%Z ∧ ∃ x, (pad_one tok pad n ids).1 !! j = Some x ∧ x ∈ ids)
  ∨ (m = 0%Z ∧ (pad_one tok pad n ids).1 !! j = Some pad).
Proof.
  unfold pad_one. destruct (padding_side tok); cbn; intros Hm.
  - apply lookup_app_Some in Hm as [Hm|[Hge Hm]].
    + apply lookup_replicate in Hm as [-> Hj]. right. split; [done|].
      rewrite lookup_app_l by (by rewrite length_replicate).
      by apply lookup_replicate_2.
    + rewrite length_replicate in Hge, Hm.
      apply lookup_replicate in Hm as [-> Hj]. left. split; [done|].
      destruct (lookup_lt_is_Some_2 ids (j - (n - length ids)) Hj) as [x Hx].
      exists x. split; [|by eapply list_elem_of_lookup_2].
      rewrite lookup_app_r by (rewrite length_replicate; lia).
      by rewrite length_replicate.
  - apply lookup_app_Some in Hm as [Hm|[Hge Hm]].
    + apply lookup_replicate in Hm as [-> Hj]. left. split; [done|].
      destruct (lookup_lt_is_Some_2 ids j Hj) as [x Hx].
      exists x. split; [|by eapply list_elem_of_lookup_2].
      by rewrite lookup_app_l.
    + rewrite length_replicate in Hge, Hm.
      apply lookup_replicate in Hm as [-> Hj]. right. split; [done|].
      rewrite lookup_app_r by done. by apply lookup_replicate_2.
Qed.

Lemma length_le_padded_length (seqs : list (list Z)) ids :
  ids ∈ seqs → length ids ≤ padded_length seqs.
Proof.
  intros Hin. apply max_list_elem_of_le, list_elem_of_fmap. eauto.
Qed.

End tokenizer_call_facts.

(** ** The shape of [dataset_transform]'s result *)

Section dataset_transform_facts.
Import TokenizerCall.


Lemma padded_rows_lookup tok pad prompts i row :
  padded_rows tok pad prompts !! i = Some row →
  ∃ text, prompts !! i = Some text ∧
    row = pad_one tok pad (batch_length tok prompts) (prepare_for_model tok true 512 text) ∧
    length (prepare_for_model tok true 512 text) ≤ batch_length tok prompts.
Proof.
  unfold padded_rows. rewrite !list_lookup_fmap. intros Hrow.
  destruct (prompts !! i) as [text|] eqn:Htext; [|done].
  injection Hrow as <-. exists text. split_and!; [done..|].
  apply length_le_padded_length, list_elem_of_fmap_2, (list_elem_of_lookup_2 _ _ _ Htext).
Qed.

Lemma padded_rows_rectangular tok pad prompts :
  Forall (fun row => length row.1 = batch_length tok prompts
                     ∧ length row.2 = batch_length tok prompts)
         (padded_rows tok pad prompts).
Proof.
  apply Forall_lookup. intros i row Hrow.
  apply padded_rows_lookup in Hrow as (text & _ & -> & Hle).
  by apply pad_one_lengths.
Qed.

Lemma length_padded_rows tok pad prompts :
  length (padded_rows tok pad prompts) = length prompts.
Proof. unfold padded_rows. by rewrite !length_fmap. Qed.

Lemma padded_rows_same_shape tok pad prompts :
  Tensor.same_shape (padded_rows tok pad prompts).*1
    (Tensor.eq_scalar (padded_rows tok pad prompts).*2 0) = true.
Proof.
  apply bool_decide_eq_true_2. unfold Tensor.eq_scalar.
  rewrite <-!list_fmap_compose. apply list_fmap_ext. intros i row Hrow. cbn.
  rewrite length_fmap.
  pose proof (padded_rows_rectangular tok pad prompts) as Hrect.
  rewrite Forall_lookup in Hrect. destruct (Hrect i row Hrow) as [-> ->]. done.
Qed.

(** On a batch with at least one prompt and a tokenizer that has a pad
    token, the transform returns, and this is the dict it returns. *)
Lemma dataset_transform_eq batch tok prompts pad :
  batch !! "prompt" = Some prompts → prompts ≠ [] → pad_token_id tok = Some pad →
  dataset_transform batch tok
  = Ok (<["input_ids" := (padded_rows tok pad prompts).*1]>
        (<["attention_mask" := (padded_rows tok pad prompts).*2]>
         (<["labels" := masked_labels (padded_rows tok pad prompts)]> ∅))).
Proof.
  intros Hbatch Hne Hpad. unfold dataset_transform, getitem. rewrite Hbatch. cbn.
  unfold call. destruct prompts as [|text prompts]; [done|].
  rewrite Hpad. cbn [mbind result_bind].
  change (pad_one tok pad _ <$> _) with (padded_rows tok pad (text :: prompts)).
  rewrite bool_decide_eq_true_2.
  - cbn [mbind result_bind input_ids attention_mask].
    unfold Tensor.masked_assign, Tensor.clone.
    by rewrite padded_rows_same_shape.
  - pose proof (padded_rows_rectangular tok pad (text :: prompts)) as Hrect.
    rewrite Forall_fmap. eapply Forall_impl; [exact Hrect|].
    intros row [Hrow _]. unfold compose. rewrite Hrow.
    rewrite Forall_lookup in Hrect.
    destruct (Hrect 0 _ eq_refl) as [Hhead _]. symmetry. exact Hhead.
Qed.

(** Whenever the transform returns, it was given prompts (at least one)
    and a pad token, and the result is the dict above. *)
Lemma dataset_transform_inv batch tok out :
  dataset_transform batch tok = Ok out →
  ∃ prompts pad,
    batch !! "prompt" = Some prompts ∧ prompts ≠ [] ∧ pad_token_id tok = Some pad ∧
    out = <["input_ids" := (padded_rows tok pad prompts).*1]>
          (<["attention_mask" := (padded_rows tok pad prompts).*2]>
           (<["labels" := masked_labels (padded_rows tok pad prompts)]> ∅)).
Proof.
  intros Hout.
  destruct (batch !! "prompt") as [prompts|] eqn:Hbatch;
    [|by unfold dataset_transform, getitem in Hout; rewrite Hbatch in Hout].
  destruct (decide (prompts = [])) as [->|Hne];
    [by unfold dataset_transform, getitem in Hout; rewrite Hbatch in Hout|].
  destruct (pad_token_id tok) as [pad|] eqn:Hpad.
  - rewrite (dataset_transform_eq _ _ _ _ Hbatch Hne Hpad) in Hout.
    injection Hout as <-. by exists prompts, pad.
  - unfold dataset_transform, getitem in Hout. rewrite Hbatch in Hout.
    cbn in Hout. unfold call in Hout. rewrite Hpad in Hout.
    by destruct prompts.
Qed.

End dataset_transform_facts.

Section transform_positions.
Import TokenizerCall.

Lemma masked_labels_at rows i j :
  Tensor.at2 (masked_labels rows) i j
  = x ← Tensor.at2 rows.*1 i j;
    m ← Tensor.at2 rows.*2 i j;
    Some (mask_label x (bool_decide (m = 0%Z))).
Proof.
  unfold Tensor.at2, masked_labels, Tensor.eq_scalar.
  rewrite lookup_zip_with, !list_lookup_fmap.
  destruct (rows !! i) as [[ids mask]|]; [|done]. cbn.
  rewrite lookup_zip_with, list_lookup_fmap.
  destruct (ids !! j); [|done]. cbn.
  by destruct (mask !! j).
Qed.

(** Position [(i, j)] of the padded batch: mask 1 over an id of prompt
    [i], mask 0 over the pad id. *)
Lemma padded_rows_at tok pad prompts i j m :
  Tensor.at2 (padded_rows tok pad prompts).*2 i j = Some m →
  ∃ text, prompts !! i = Some text ∧
    ((m = 1%Z ∧ ∃ x, Tensor.at2 (padded_rows tok pad prompts).*1 i j = Some x
                     ∧ x ∈ prepare_for_model tok true 512 text)
     ∨ (m = 0%Z ∧ Tensor.at2 (padded_rows tok pad prompts).*1 i j = Some pad)).
Proof.
  unfold Tensor.at2. rewrite !list_lookup_fmap.
  destruct (padded_rows tok pad prompts !! i) as [row|] eqn:Hrow; [|done].
  apply padded_rows_lookup in Hrow as (text & Htext & -> & _). cbn.
  intros Hm. exists text. split; [done|].
  by apply pad_one_lookup.
Qed.

(** Both tensors of the padded batch have the same positions. *)
Lemma padded_rows_positions tok pad prompts i j :
  is_Some (Tensor.at2 (padded_rows tok pad prompts).*1 i j)
  ↔ is_Some (Tensor.at2 (padded_rows tok pad prompts).*2 i j).
Proof.
  unfold Tensor.at2. rewrite !list_lookup_fmap.
  destruct (padded_rows tok pad prompts !! i) as [row|] eqn:Hrow; [|done].
  pose proof (padded_rows_rectangular tok pad prompts) as Hrect.
  rewrite Forall_lookup in Hrect. destruct (Hrect i row Hrow) as [H1 H2]. cbn.
  rewrite !lookup_lt_is_Some. lia.
Qed.

Lemma transform_dict_lookups (ids mask labels : Tensor.t) :
  let out : gmap string Tensor.t :=
    <["input_ids" := ids]> (<["attention_mask" := mask]> (<["labels" := labels]> ∅)) in
  out !! "input_ids" = Some ids ∧ out !! "attention_mask" = Some mask
  ∧ out !! "labels" = Some labels.
Proof. cbn zeta. split_and!; by simplify_map_eq. Qed.

Lemma max_list_min_fmap {A} (f : A → nat) n (l : list A) :
  max_list ((fun a => f a `min` n) <$> l) = max_list (f <$> l) `min` n.
Proof. induction l as [|a l IH]; cbn; lia. Qed.

Lemma masked_labels_rectangular n rows :
  Forall (fun row : list Z * list Z => length row.1 = n ∧ length row.2 = n) rows →
  Forall (fun row : list Z => length row = n) (masked_labels rows).
Proof.
  intros Hrect. apply Forall_lookup. intros i row.
  unfold masked_labels, Tensor.eq_scalar.
  rewrite lookup_zip_with, !list_lookup_fmap.
  destruct (rows !! i) as [[ids mask]|] eqn:Hrow; [|done]. cbn.
  intros [= <-]. rewrite Forall_lookup in Hrect.
  destruct (Hrect i _ Hrow) as [H1 H2]. cbn in H1, H2.
  rewrite length_zip_with, length_fmap. lia.
Qed.

Lemma length_masked_labels n rows :
  Forall (fun row : list Z * list Z => length row.1 = n ∧ length row.2 = n) rows →
  length (masked_labels rows) = length rows.
Proof.
  intros _. unfold masked_labels, Tensor.eq_scalar.
  rewrite length_zip_with, !length_fmap. lia.
Qed.

End transform_positions.

(** ** The batch transform: masks, labels and lengths *)

Lemma byte_tokenizer_spec : TokenizerSpec padded_byte_tokenizer.
Proof.
  split.
  - intros ids. cbn. lia.
  - intros s. cbn. apply Forall_fmap, Forall_forall. intros c _. cbn. lia.
  - intros ids Hids. cbn. by constructor.
Qed.

Lemma demo_transform : dataset_transform demo_batch padded_byte_tokenizer = Ok demo_output.
Proof. vm_compute. reflexivity. Qed.

(** A prompt of 600 characters is cut to 512 ids, the opening id among
    them, and the short prompt of the batch is padded to that length; a
    batch without prompts, or without the column, raises. *)
Example dataset_transform_long_prompt :
  match dataset_transform {[ "prompt" := [long_prompt 600; "b"] ]} padded_byte_tokenizer with
  | Ok out =>
      row_lengths out "input_ids" = Some [512; 512]
      ∧ row_lengths out "attention_mask" = Some [512; 512]
      ∧ row_lengths out "labels" = Some [512; 512]
  | Raise _ => False
  end
  ∧ dataset_transform {[ "prompt" := [] ]} padded_byte_tokenizer = Raise ValueError
  ∧ dataset_transform {[ "text" := ["b"] ]} padded_byte_tokenizer = Raise KeyError
  ∧ dataset_transform demo_batch byte_tokenizer = Raise ValueError.
Proof. vm_compute. split_and!; reflexivity. Qed.

(** On a batch that carries at least one prompt, with a tokenizer that has
    a pad token, the transform returns a dict. *)
Lemma dataset_transform_returns batch tok prompts :
  batch !! "prompt" = Some prompts → prompts ≠ [] → is_Some (pad_token_id tok) →
  ∃ out, dataset_transform batch tok = Ok out.
Proof.
  intros Hbatch Hne [pad Hpad]. eexists. by apply dataset_transform_eq.
Qed.

(** C1: in the dict [dataset_transform] returns, a position has attention
    mask 0 exactly when its label is the ignore sentinel -100, and at every
    other position the label is the token id of [input_ids] at that
    position.  The three tensors have the same positions.  The tokenizer is
    any one whose ids are vocabulary indices. *)
Theorem dataset_transform_mask_zero_iff_ignore_label tok batch out :
  TokenizerSpec tok →
  dataset_transform batch tok = Ok out →
  ∃ ids mask labels,
    out !! "input_ids" = Some ids ∧ out !! "attention_mask" = Some mask
    ∧ out !! "labels" = Some labels
    ∧ ∀ i j,
        (is_Some (Tensor.at2 labels i j) ↔ is_Some (Tensor.at2 mask i j))
        ∧ ∀ m l, Tensor.at2 mask i j = Some m → Tensor.at2 labels i j = Some l →
            (m = 0%Z ↔ l = IGNORE_INDEX)
            ∧ (m ≠ 0%Z → Tensor.at2 ids i j = Some l).
Proof.
  intros Hspec Hout.
  apply dataset_transform_inv in Hout as (prompts & pad & _ & _ & _ & ->).
  destruct (transform_dict_lookups (padded_rows tok pad prompts).*1
              (padded_rows tok pad prompts).*2
              (masked_labels (padded_rows tok pad prompts))) as (Hids & Hmask & Hlabels).
  eexists _, _, _. split_and!; [done..|]. intros i j.
  rewrite masked_labels_at. split.
  - pose proof (padded_rows_positions tok pad prompts i j) as Hpos.
    destruct (Tensor.at2 (padded_rows tok pad prompts).*1 i j) as [x|];
      destruct (Tensor.at2 (padded_rows tok pad prompts).*2 i j) as [m|]; cbn;
      split; intros Hsome; try done; try (by apply Hpos); try (by apply Hpos in Hsome).
  - intros m l Hm Hl.
    destruct (padded_rows_at _ _ _ _ _ _ Hm) as (text & _ & [(-> & x & Hx & Hin)|(-> & Hx)]);
      rewrite Hx, Hm in Hl; cbn in Hl; injection Hl as <-.
    + pose proof (prepare_for_model_vocab tok true 512 text Hspec) as Hvocab.
      rewrite Forall_forall in Hvocab. apply Hvocab in Hin.
      unfold IGNORE_INDEX. split; [lia|done].
    + done.
Qed.

Lemma dataset_transform_mask_zero_iff_ignore_label_witness :
  ∃ ids mask labels,
    demo_output !! "input_ids" = Some ids ∧ demo_output !! "attention_mask" = Some mask
    ∧ demo_output !! "labels" = Some labels
    ∧ ∀ i j,
        (is_Some (Tensor.at2 labels i j) ↔ is_Some (Tensor.at2 mask i j))
        ∧ ∀ m l, Tensor.at2 mask i j = Some m → Tensor.at2 labels i j = Some l →
            (m = 0%Z ↔ l = IGNORE_INDEX)
            ∧ (m ≠ 0%Z → Tensor.at2 ids i j = Some l).
Proof.
  apply (dataset_transform_mask_zero_iff_ignore_label padded_byte_tokenizer demo_batch).
  - exact byte_tokenizer_spec.
  - vm_compute. reflexivity.
Defined.

(** C5: in the dict [dataset_transform] returns, at every position whose
    attention mask is 1 the label is the token id of [input_ids] at that
    position. *)
Theorem dataset_transform_label_is_token_where_attended tok batch out :
  dataset_transform batch tok = Ok out →
  ∃ ids mask labels,
    out !! "input_ids" = Some ids ∧ out !! "attention_mask" = Some mask
    ∧ out !! "labels" = Some labels
    ∧ ∀ i j, Tensor.at2 mask i j = Some 1%Z →
        ∃ x, Tensor.at2 ids i j = Some x ∧ Tensor.at2 labels i j = Some x.
Proof.
  intros Hout.
  apply dataset_transform_inv in Hout as (prompts & pad & _ & _ & _ & ->).
  destruct (transform_dict_lookups (padded_rows tok pad prompts).*1
              (padded_rows tok pad prompts).*2
              (masked_labels (padded_rows tok pad prompts))) as (Hids & Hmask & Hlabels).
  eexists _, _, _. split_and!; [done..|]. intros i j Hm.
  rewrite masked_labels_at.
  destruct (padded_rows_at _ _ _ _ _ _ Hm) as (text & _ & [(_ & x & Hx & _)|([=] & _)]).
  exists x. by rewrite Hx, Hm.
Qed.

Lemma dataset_transform_label_is_token_where_attended_witness :
  ∃ ids mask labels,
    demo_output !! "input_ids" = Some ids ∧ demo_output !! "attention_mask" = Some mask
    ∧ demo_output !! "labels" = Some labels
    ∧ ∀ i j, Tensor.at2 mask i j = Some 1%Z →
        ∃ x, Tensor.at2 ids i j = Some x ∧ Tensor.at2 labels i j = Some x.
Proof.
  apply (dataset_transform_label_is_token_where_attended padded_byte_tokenizer demo_batch).
  vm_compute. reflexivity.
Defined.

(** The padded length of a batch is the longest untruncated length, capped
    at 512. *)
Lemma batch_length_capped tok prompts :
  TokenizerSpec tok → TokenizerCall.num_special_tokens_to_add tok < 512 →
  batch_length tok prompts = max_list (tokenized_length tok <$> prompts) `min` 512.
Proof.
  intros Hspec Hfew. unfold batch_length, TokenizerCall.padded_length.
  rewrite <-list_fmap_compose, <-max_list_min_fmap. f_equal.
  apply list_fmap_ext. intros _ text _. cbn.
  rewrite prepare_for_model_length by done.
  unfold tokenized_length. by rewrite (special_tokens_length tok Hspec).
Qed.

(** C4: on a batch with at least one prompt the transform returns, and in
    its dict [input_ids], [attention_mask] and [labels] have one row per
    prompt, every row of the one common length [batch_length], which is the
    length of the longest tokenized prompt capped at 512. *)
Theorem dataset_transform_common_padded_length tok batch prompts :
  TokenizerSpec tok → TokenizerCall.num_special_tokens_to_add tok < 512 →
  is_Some (pad_token_id tok) →
  batch !! "prompt" = Some prompts → prompts ≠ [] →
  ∃ out ids mask labels,
    dataset_transform batch tok = Ok out
    ∧ out !! "input_ids" = Some ids ∧ out !! "attention_mask" = Some mask
    ∧ out !! "labels" = Some labels
    ∧ length ids = length prompts ∧ length mask = length prompts
    ∧ length labels = length prompts
    ∧ Tensor.rectangular (batch_length tok prompts) ids
    ∧ Tensor.rectangular (batch_length tok prompts) mask
    ∧ Tensor.rectangular (batch_length tok prompts) labels
    ∧ batch_length tok prompts = max_list (tokenized_length tok <$> prompts) `min` 512.
Proof.
  intros Hspec Hfew [pad Hpad] Hbatch Hne.
  destruct (transform_dict_lookups (padded_rows tok pad prompts).*1
              (padded_rows tok pad prompts).*2
              (masked_labels (padded_rows tok pad prompts))) as (Hids & Hmask & Hlabels).
  pose proof (padded_rows_rectangular tok pad prompts) as Hrect.
  eexists _, _, _, _. split; [by apply dataset_transform_eq|].
  split_and!; [done..| | | | | | |].
  - by rewrite length_fmap, length_padded_rows.
  - by rewrite length_fmap, length_padded_rows.
  - by rewrite (length_masked_labels _ _ Hrect), length_padded_rows.
  - apply Forall_fmap. eapply Forall_impl; [exact Hrect|]. by intros row [? _].
  - apply Forall_fmap. eapply Forall_impl; [exact Hrect|]. by intros row [_ ?].
  - by apply masked_labels_rectangular.
  - by apply batch_length_capped.
Qed.

Lemma dataset_transform_common_padded_length_witness :
  ∃ out ids mask labels,
    dataset_transform demo_batch padded_byte_tokenizer = Ok out
    ∧ out !! "input_ids" = Some ids ∧ out !! "attention_mask" = Some mask
    ∧ out !! "labels" = Some labels
    ∧ length ids = 3 ∧ length mask = 3 ∧ length labels = 3
    ∧ Tensor.rectangular 3 ids ∧ Tensor.rectangular 3 mask ∧ Tensor.rectangular 3 labels
    ∧ 3 = 3 `min` 512.
Proof.
  apply (dataset_transform_common_padded_length padded_byte_tokenizer demo_batch ["ab"; "c"; ""]).
  - exact byte_tokenizer_spec.
  - vm_compute. lia.
  - vm_compute. eauto.
  - vm_compute. reflexivity.
  - discriminate.
Defined.

(** The transform never reads the configured maximum length. *)
Lemma dataset_transform_ignores_model_max_length tok batch m :
  dataset_transform batch (set_model_max_length tok m) = dataset_transform batch tok.
Proof. reflexivity. Qed.

(** C8: the transform truncates at the bound 512 written in its body,
    whatever [model_max_length] the tokenizer was configured with: its
    result is the same for every value of [model_max_length], and no row of
    any tensor it returns is longer than 512. *)
Theorem dataset_transform_bound_512_not_model_max_length tok batch m :
  TokenizerSpec tok → TokenizerCall.num_special_tokens_to_add tok < 512 →
  dataset_transform batch (set_model_max_length tok m) = dataset_transform batch tok
  ∧ ∀ out key (x : Tensor.t) row,
      dataset_transform batch (set_model_max_length tok m) = Ok out →
      out !! key = Some x → row ∈ x → length row ≤ 512.
Proof.
  intros Hspec Hfew. split; [reflexivity|].
  intros out key x row Hout Hkey Hrow.
  rewrite dataset_transform_ignores_model_max_length in Hout.
  apply dataset_transform_inv in Hout as (prompts & pad & _ & _ & _ & ->).
  pose proof (padded_rows_rectangular tok pad prompts) as Hrect.
  pose proof (batch_length_capped tok prompts Hspec Hfew) as Hcap.
  assert (Tensor.rectangular (batch_length tok prompts) x) as Hx.
  { apply lookup_insert_Some in Hkey as [[_ <-]|[_ Hkey]].
    { apply Forall_fmap. eapply Forall_impl; [exact Hrect|]. by intros ? [? _]. }
    apply lookup_insert_Some in Hkey as [[_ <-]|[_ Hkey]].
    { apply Forall_fmap. eapply Forall_impl; [exact Hrect|]. by intros ? [_ ?]. }
    apply lookup_insert_Some in Hkey as [[_ <-]|[_ Hkey]].
    { by apply masked_labels_rectangular. }
    by rewrite lookup_empty in Hkey. }
  unfold Tensor.rectangular in Hx. rewrite Forall_forall in Hx.
  rewrite (Hx row Hrow). lia.
Qed.

Lemma dataset_transform_bound_512_not_model_max_length_witness :
  dataset_transform demo_batch (set_model_max_length padded_byte_tokenizer 2)
  = dataset_transform demo_batch padded_byte_tokenizer
  ∧ ∀ out key (x : Tensor.t) row,
      dataset_transform demo_batch (set_model_max_length padded_byte_tokenizer 2) = Ok out →
      out !! key = Some x → row ∈ x → length row ≤ 512.
Proof.
  apply (dataset_transform_bound_512_not_model_max_length padded_byte_tokenizer demo_batch 2).
  - exact byte_tokenizer_spec.
  - vm_compute. lia.
Defined.

(** Under attention mask 0 the token id is the pad id of the tokenizer. *)
Lemma dataset_transform_padding_is_pad_token tok batch out :
  dataset_transform batch tok = Ok out →
  ∃ pad ids mask,
    pad_token_id tok = Some pad
    ∧ out !! "input_ids" = Some ids ∧ out !! "attention_mask" = Some mask
    ∧ ∀ i j, Tensor.at2 mask i j = Some 0%Z → Tensor.at2 ids i j = Some pad.
Proof.
  intros Hout.
  apply dataset_transform_inv in Hout as (prompts & pad & _ & _ & Hpad & ->).
  destruct (transform_dict_lookups (padded_rows tok pad prompts).*1
              (padded_rows tok pad prompts).*2
              (masked_labels (padded_rows tok pad prompts))) as (Hids & Hmask & Hlabels).
  eexists _, _, _. split_and!; [done..|]. intros i j Hm.
  by destruct (padded_rows_at _ _ _ _ _ _ Hm) as (text & _ & [([=] & _)|(_ & Hx)]).
Qed.

(** ** The adapter switch *)

Lemma freeze_not_trainable (ps : list NamedParameter) :
  Forall (fun p => ¬ trainable p) (Peft.freeze <$> ps).
Proof. apply Forall_fmap, Forall_forall. by intros p _. Qed.

Lemma inject_base_parameters cfg (m : NNModule) :
  Peft.base_parameters_of (Peft.inject cfg m) = Peft.freeze <$> parameters m.
Proof. unfold Peft.inject. by destruct (Peft.is_target _ _). Qed.

Lemma inject_adapter_trainable cfg (m : NNModule) :
  inference_mode cfg = false →
  Forall trainable (Peft.adapter_parameters_of (Peft.inject cfg m)).
Proof.
  intros Hmode. unfold Peft.inject.
  destruct (Peft.is_target _ _); cbn; [|done].
  repeat constructor; unfold trainable; cbn; by rewrite Hmode.
Qed.

Lemma inject_adapter_nonempty cfg (model : PreTrainedModel) :
  existsb (fun m => Peft.is_target cfg (module_name m)) model = true →
  (Peft.inject cfg <$> model) ≫= Peft.adapter_parameters_of ≠ [].
Proof.
  induction model as [|m model IH]; cbn; [done|].
  unfold Peft.inject at 1. destruct (Peft.is_target cfg (module_name m)); cbn; [done|].
  exact IH.
Qed.

Lemma get_peft_model_parameters cfg (model : PreTrainedModel) wrapped :
  inference_mode cfg = false →
  Peft.get_peft_model model cfg = Ok wrapped →
  base_parameters (Wrapped wrapped) = Peft.freeze <$> base_parameters (Plain model)
  ∧ Forall trainable (adapter_parameters (Wrapped wrapped))
  ∧ adapter_parameters (Wrapped wrapped) ≠ [].
Proof.
  intros Hmode. unfold Peft.get_peft_model.
  destruct (existsb _ model) eqn:Htarget; [|done]. intros [= <-]. cbn. split_and!.
  - clear Htarget. induction model as [|m model IH]; [done|].
    cbn in *. by rewrite fmap_app, inject_base_parameters, IH.
  - clear Htarget. induction model as [|m model IH]; cbn; [done|].
    apply Forall_app. split; [by apply inject_adapter_trainable|done].
  - by apply inject_adapter_nonempty.
Qed.

(** With [use_lora] on, the run of the switch: two calls, a third one when
    the wrapping returned, and the wrapped model or the wrapper's error. *)
Lemma wrap_model_lora (training_args : TrainingArguments) (model : PreTrainedModel) :
  use_lora training_args = true →
  wrap_model training_args model
  = ([EnableInputRequireGrads; GetPeftModel peft_config]
     ++ match Peft.get_peft_model model peft_config with
        | Ok _ => [PrintTrainableParameters]
        | Raise _ => []
        end,
     Wrapped <$> Peft.get_peft_model model peft_config).
Proof.
  intros Hlora. unfold wrap_model. rewrite Hlora.
  unfold mbind, run_bind, perform; cbn [fst snd].
  by destruct (Peft.get_peft_model model peft_config).
Qed.

(** C3: with [use_lora] on, whenever the wrapping returns, the base
    parameters of the wrapped model are those of the loaded model, every
    one frozen, and the injected adapter parameters, of which there are
    some, are all trainable; the wrapping raises only [ValueError], when no
    module is targeted.  With [use_lora] off the model is handed on as it
    was loaded, without any outside call: every parameter keeps its
    [requires_grad], and nothing is injected. *)
Theorem wrap_model_trainable_parameters (training_args : TrainingArguments)
    (model : PreTrainedModel) :
  if use_lora training_args then
    match (wrap_model training_args model).2 with
    | Ok wrapped =>
        base_parameters wrapped = Peft.freeze <$> base_parameters (Plain model)
        ∧ Forall (fun p => ¬ trainable p) (base_parameters wrapped)
        ∧ Forall trainable (adapter_parameters wrapped)
        ∧ adapter_parameters wrapped ≠ []
    | Raise e =>
        e = ValueError
        ∧ existsb (fun m => Peft.is_target peft_config (module_name m)) model = false
    end
  else
    wrap_model training_args model = ([], Ok (Plain model))
    ∧ base_parameters (Plain model) = model ≫= parameters
    ∧ adapter_parameters (Plain model) = [].
Proof.
  destruct (use_lora training_args) eqn:Hlora; [|by unfold wrap_model; rewrite Hlora].
  rewrite (wrap_model_lora _ _ Hlora). cbn [snd].
  destruct (Peft.get_peft_model model peft_config) as [wrapped|e] eqn:Hwrap; cbn.
  - destruct (get_peft_model_parameters peft_config model wrapped eq_refl Hwrap)
      as (Hbase & Hadapter & Hsome).
    split_and!; [done| |done..].
    cbn in Hbase. rewrite Hbase. apply freeze_not_trainable.
  - unfold Peft.get_peft_model in Hwrap.
    destruct (existsb _ model); [done|]. by injection Hwrap as <-.
Qed.

(** On the demo model the wrapping returns: the [W_pack] layer gains two
    trainable matrices and all three loaded weights are frozen. *)
Example wrap_demo_model :
  (wrap_model (demo_training_args true) demo_model).2
  = Ok (Wrapped
      [ Peft.BaseModule
          {| module_name := "model.embed_tokens";
             parameters := [ {| param_name := "weight"; requires_grad := false |} ] |};
        Peft.LoraModule
          {| module_name := "model.layers.0.self_attn.W_pack";
             parameters := [ {| param_name := "weight"; requires_grad := false |} ] |}
          {| param_name := "model.layers.0.self_attn.W_pack.lora_A.default.weight";
             requires_grad := true |}
          {| param_name := "model.layers.0.self_attn.W_pack.lora_B.default.weight";
             requires_grad := true |};
        Peft.BaseModule
          {| module_name := "model.layers.0.self_attn.o_proj";
             parameters := [ {| param_name := "weight"; requires_grad := false |} ] |} ]).
Proof. reflexivity. Qed.

(** ** Dataset loading *)


Lemma contains_getitem (loaded : DatasetObject) :
  (if contains "train" loaded then dataset_getitem loaded "train" else Ok loaded)
  = Ok (prefer_train_split loaded).
Proof.
  destruct loaded as [d|d]; [done|].
  unfold contains, dataset_getitem, prefer_train_split, getitem.
  destruct (d !! "train") as [split|] eqn:Hsplit.
  - by rewrite bool_decide_eq_true_2.
  - by rewrite bool_decide_eq_false_2 by (by intros [? ?]).
Qed.

(** The run of lines 95-100, by the answer of the disk. *)
Lemma load_data_run (w : World) (data_args : DataArguments) :
  load_data w data_args
  = match disk_datasets w (data_path data_args) with
    | Ok loaded => ([LoadFromDisk (data_path data_args)], Ok (prefer_train_split loaded))
    | Raise _ =>
        ([LoadFromDisk (data_path data_args); LoadDataset (data_path data_args) "train"],
         ADataset <$> hub_datasets w (data_path data_args) "train")
    end.
Proof.
  unfold load_data, try_except, mbind, run_bind, perform, pure_step, mret, run_ret.
  cbn [fst snd].
  destruct (disk_datasets w (data_path data_args)) as [loaded|e]; [|done].
  pose proof (contains_getitem loaded) as Hsel.
  destruct (contains "train" loaded); cbn [fst snd]; [by rewrite Hsel|].
  by injection Hsel as <-.
Qed.

(** C2: loading first calls the local load on [data_path].  When that
    returns, it is the only call, the remote fetch is not made, and the
    result is the "train" split when the loaded object has one and the
    loaded object otherwise.  When it raises, whatever the exception, the
    one further call is the remote fetch of the "train" split, whose answer
    is the result.  So the remote fetch is made exactly when the local load
    fails. *)
Theorem load_data_local_first_remote_on_failure (w : World) (data_args : DataArguments) :
  head (load_data w data_args).1 = Some (LoadFromDisk (data_path data_args))
  ∧ match disk_datasets w (data_path data_args) with
    | Ok loaded =>
        load_data w data_args
        = ([LoadFromDisk (data_path data_args)], Ok (prefer_train_split loaded))
        ∧ existsb is_remote_fetch (load_data w data_args).1 = false
    | Raise _ =>
        load_data w data_args
        = ([LoadFromDisk (data_path data_args); LoadDataset (data_path data_args) "train"],
           ADataset <$> hub_datasets w (data_path data_args) "train")
        ∧ existsb is_remote_fetch (load_data w data_args).1 = true
    end.
Proof.
  rewrite load_data_run.
  by destruct (disk_datasets w (data_path data_args)).
Qed.

(** On the demo world: a dict on the disk gives its train split, a single
    dataset on the disk is taken as it is, and a path the disk does not hold
    is fetched from the hub. *)
Example load_data_demo :
  load_data (demo_world 3) {| data_path := Some "data" |}
  = ([LoadFromDisk (Some "data")], Ok (ADataset (demo_dataset 3)))
  ∧ load_data (demo_world 3) {| data_path := Some "flat" |}
    = ([LoadFromDisk (Some "flat")], Ok (ADataset (demo_dataset 3)))
  ∧ load_data (demo_world 3) {| data_path := None |}
    = ([LoadFromDisk None; LoadDataset None "train"], Ok (ADataset (demo_dataset 3))).
Proof. split_and!; vm_compute; reflexivity. Qed.

(** ** The train/held-out split *)

Section split_facts.
Variable permutation : Z → nat → list nat.

Lemma train_test_indices_raises entropy n_samples test_size seed :
  0 < n_samples → (Z.of_nat n_samples ≤ test_size)%Z →
  Split.train_test_indices permutation entropy n_samples test_size seed = Raise ValueError.
Proof.
  intros Hrows Hsmall. unfold Split.train_test_indices.
  rewrite bool_decide_eq_false_2 by lia.
  by rewrite bool_decide_eq_true_2 by (by left).
Qed.

Lemma train_test_indices_returns entropy n_samples test_size seed :
  (0 < test_size < Z.of_nat n_samples)%Z →
  Split.train_test_indices permutation entropy n_samples test_size seed
  = Ok (take (n_samples - Z.to_nat test_size)
          (drop (Z.to_nat test_size)
             (permutation (Split.default_rng entropy seed) n_samples)),
        take (Z.to_nat test_size) (permutation (Split.default_rng entropy seed) n_samples)).
Proof.
  intros Hsize. unfold Split.train_test_indices.
  rewrite bool_decide_eq_false_2 by lia.
  rewrite bool_decide_eq_false_2 by lia.
  by rewrite bool_decide_eq_false_2 by lia.
Qed.

Lemma select_returns (d : Dataset) indices :
  Forall (fun i => i < length (rows d)) indices →
  ∃ selected,
    Split.select d indices = Ok {| rows := selected; format := format d |}
    ∧ Forall2 (fun i row => rows d !! i = Some row) indices selected.
Proof.
  intros Hrange. unfold Split.select.
  destruct (mapM (fun i => rows d !! i) indices) as [selected|] eqn:Hsel.
  - exists selected. split; [done|]. by apply mapM_Some_1.
  - apply mapM_None_1, Exists_exists in Hsel as (i & Hi & Hnone).
    rewrite Forall_forall in Hrange. apply Hrange in Hi.
    apply lookup_ge_None in Hnone. lia.
Qed.

Lemma select_format (d selected : Dataset) indices :
  Split.select d indices = Ok selected → format selected = format d.
Proof.
  unfold Split.select. destruct (mapM _ indices); [|done]. by intros [= <-].
Qed.

(** The splits of a dataset carry its format. *)
Lemma train_test_split_format entropy (d : Dataset) test_size seed splits key split :
  Split.train_test_split permutation entropy d test_size seed = Ok splits →
  splits !! key = Some split → format split = format d.
Proof.
  unfold Split.train_test_split. case_bool_decide as Hempty.
  { intros [= <-] Hkey.
    apply lookup_insert_Some in Hkey as [[_ <-]|[_ Hkey]]; [done|].
    apply lookup_insert_Some in Hkey as [[_ <-]|[_ Hkey]]; [done|].
    by rewrite lookup_empty in Hkey. }
  destruct (Split.train_test_indices _ _ _ _ _) as [[train_indices test_indices]|]; [|done].
  cbn. destruct (Split.select d train_indices) as [train_split|] eqn:Htrain; [|done].
  cbn. destruct (Split.select d test_indices) as [test_split|] eqn:Htest; [|done].
  cbn. intros [= <-] Hkey.
  apply lookup_insert_Some in Hkey as [[_ <-]|[_ Hkey]]; [by eapply select_format|].
  apply lookup_insert_Some in Hkey as [[_ <-]|[_ Hkey]]; [by eapply select_format|].
  by rewrite lookup_empty in Hkey.
Qed.

Lemma train_test_split_raises entropy (d : Dataset) seed :
  0 < length (rows d) → length (rows d) ≤ 1000 →
  Split.train_test_split permutation entropy d 1000 seed = Raise ValueError.
Proof.
  intros Hrows Hsmall. unfold Split.train_test_split.
  rewrite bool_decide_eq_false_2 by lia.
  by rewrite train_test_indices_raises by lia.
Qed.

(** A dataset without rows is split into itself, twice. *)
Lemma train_test_split_empty entropy (d : Dataset) test_size seed :
  rows d = [] →
  Split.train_test_split permutation entropy d test_size seed
  = Ok (<["train" := d]> (<["test" := d]> ∅)).
Proof.
  intros Hempty. unfold Split.train_test_split.
  by rewrite bool_decide_eq_true_2 by (by rewrite Hempty).
Qed.

Hypothesis permutation_spec : ∀ s n, permutation s n ≡ₚ seq 0 n.

Lemma permutation_length s n : length (permutation s n) = n.
Proof. by rewrite (Permutation_length (permutation_spec s n)), length_seq. Qed.

Lemma permutation_range s n i : i ∈ permutation s n ↔ i < n.
Proof. rewrite (permutation_spec s n), elem_of_seq. lia. Qed.

(** The two index lists of a split that returns: the shuffled order cut
    after its first [test_size] entries. *)
Lemma train_test_indices_cut entropy n_samples test_size seed :
  (0 < test_size < Z.of_nat n_samples)%Z →
  ∃ train_indices test_indices,
    Split.train_test_indices permutation entropy n_samples test_size seed
    = Ok (train_indices, test_indices)
    ∧ test_indices ++ train_indices = permutation (Split.default_rng entropy seed) n_samples
    ∧ length test_indices = Z.to_nat test_size
    ∧ length train_indices = n_samples - Z.to_nat test_size.
Proof.
  intros Hsize. eexists _, _. split; [by apply train_test_indices_returns|].
  set (order := permutation _ n_samples).
  assert (length order = n_samples) as Horder by apply permutation_length.
  rewrite (take_ge (drop _ order)) by (rewrite length_drop; lia).
  split_and!.
  - apply take_drop.
  - rewrite length_take. lia.
  - rewrite length_drop. lia.
Qed.

(** C7: on a dataset of more than 1000 rows the split returns a test
    partition of exactly 1000 rows and a train partition of the other
    [N - 1000]; the rows of each are the rows at its indices, no index is in
    both partitions or twice in one, and every index of the dataset is in
    one of them. *)
Theorem train_test_split_sizes_disjoint_cover entropy (d : Dataset) :
  1000 < length (rows d) →
  ∃ train_indices test_indices train_split test_split,
    Split.train_test_indices permutation entropy (length (rows d)) 1000 (Some 42%Z)
    = Ok (train_indices, test_indices)
    ∧ Split.train_test_split permutation entropy d 1000 (Some 42%Z)
      = Ok (<["train" := train_split]> (<["test" := test_split]> ∅))
    ∧ Forall2 (fun i row => rows d !! i = Some row) train_indices (rows train_split)
    ∧ Forall2 (fun i row => rows d !! i = Some row) test_indices (rows test_split)
    ∧ length (rows test_split) = 1000
    ∧ length (rows train_split) = length (rows d) - 1000
    ∧ (∀ i, i ∈ train_indices → i ∉ test_indices)
    ∧ (∀ i, i < length (rows d) ↔ i ∈ train_indices ∨ i ∈ test_indices)
    ∧ NoDup (train_indices ++ test_indices).
Proof.
  intros Hlarge.
  destruct (train_test_indices_cut entropy (length (rows d)) 1000 (Some 42%Z))
    as (train_indices & test_indices & Hindices & Hcut & Htest & Htrain); [lia|].
  assert (test_indices ++ train_indices ≡ₚ seq 0 (length (rows d))) as Hperm
    by (rewrite Hcut; apply permutation_spec).
  assert (NoDup (test_indices ++ train_indices)) as Hnodup
    by (rewrite Hperm; apply NoDup_seq).
  assert (∀ i, i ∈ test_indices ++ train_indices ↔ i < length (rows d)) as Hrange
    by (intros i; rewrite Hcut; apply permutation_range).
  destruct (select_returns d train_indices) as (train_rows & Hsel_train & Hrows_train).
  { apply Forall_forall. intros i Hi. apply Hrange, elem_of_app. by right. }
  destruct (select_returns d test_indices) as (test_rows & Hsel_test & Hrows_test).
  { apply Forall_forall. intros i Hi. apply Hrange, elem_of_app. by left. }
  eexists train_indices, test_indices, _, _. split_and!.
  - exact Hindices.
  - unfold Split.train_test_split. rewrite bool_decide_eq_false_2 by lia.
    rewrite Hindices. cbn.
    rewrite Hsel_train. cbn. rewrite Hsel_test. cbn. reflexivity.
  - exact Hrows_train.
  - exact Hrows_test.
  - cbn. rewrite <-(Forall2_length _ _ _ Hrows_test). exact Htest.
  - cbn. rewrite <-(Forall2_length _ _ _ Hrows_train). exact Htrain.
  - apply NoDup_app in Hnodup as (_ & Hdisjoint & _).
    intros i Htr Hte. by apply (Hdisjoint i).
  - intros i. rewrite <-Hrange, elem_of_app. tauto.
  - by rewrite (Permutation_app_comm train_indices test_indices).
Qed.

End split_facts.

Lemma reverse_permutation_spec s n : reverse_permutation s n ≡ₚ seq 0 n.
Proof. apply reverse_Permutation. Qed.

Lemma train_test_split_sizes_disjoint_cover_witness :
  ∃ train_indices test_indices train_split test_split,
    Split.train_test_indices reverse_permutation 7 (length (rows (demo_dataset 1003)))
      1000 (Some 42%Z)
    = Ok (train_indices, test_indices)
    ∧ Split.train_test_split reverse_permutation 7 (demo_dataset 1003) 1000 (Some 42%Z)
      = Ok (<["train" := train_split]> (<["test" := test_split]> ∅))
    ∧ Forall2 (fun i row => rows (demo_dataset 1003) !! i = Some row)
        train_indices (rows train_split)
    ∧ Forall2 (fun i row => rows (demo_dataset 1003) !! i = Some row)
        test_indices (rows test_split)
    ∧ length (rows test_split) = 1000
    ∧ length (rows train_split) = length (rows (demo_dataset 1003)) - 1000
    ∧ (∀ i, i ∈ train_indices → i ∉ test_indices)
    ∧ (∀ i, i < length (rows (demo_dataset 1003)) ↔ i ∈ train_indices ∨ i ∈ test_indices)
    ∧ NoDup (train_indices ++ test_indices).
Proof.
  apply (train_test_split_sizes_disjoint_cover reverse_permutation
           reverse_permutation_spec 7 (demo_dataset 1003)).
  vm_compute. lia.
Defined.

Example train_test_indices_of_five :
  Split.train_test_indices reverse_permutation 7 5 2 (Some 42%Z) = Ok ([2; 1; 0], [4; 3])
  ∧ Split.train_test_indices reverse_permutation 7 5 5 (Some 42%Z) = Raise ValueError
  ∧ Split.train_test_indices reverse_permutation 7 5 0 (Some 42%Z) = Raise ValueError.
Proof. split_and!; reflexivity. Qed.


(** C6: the split of line 103 does not depend on the run.  Two runs, in
    any two worlds (whatever their entropy), on the same dataset and
    tokenizer make the same calls with the same result: the same index
    lists, hence every record in the same partition, and the same two
    datasets. *)
Theorem train_test_split_same_partition_in_two_runs (permutation : Z → nat → list nat)
    (w1 w2 : World) (dataset : DatasetObject) (tokenizer : PreTrainedTokenizer)
    (d : Dataset) (n_samples : nat) :
  transform_and_split permutation w1 dataset tokenizer
  = transform_and_split permutation w2 dataset tokenizer
  ∧ Split.train_test_split permutation (os_entropy w1) d 1000 (Some 42%Z)
    = Split.train_test_split permutation (os_entropy w2) d 1000 (Some 42%Z)
  ∧ Split.train_test_indices permutation (os_entropy w1) n_samples 1000 (Some 42%Z)
    = Split.train_test_indices permutation (os_entropy w2) n_samples 1000 (Some 42%Z).
Proof. split_and!; reflexivity. Qed.

(** Without a seed the split would follow the entropy of the run. *)
Example seedless_split_follows_entropy :
  Split.train_test_indices rotating_permutation 0 3 1 None = Ok ([1; 2], [0])
  ∧ Split.train_test_indices rotating_permutation 1 3 1 None = Ok ([2; 0], [1])
  ∧ Split.train_test_indices rotating_permutation 0 3 1 (Some 42%Z)
    = Split.train_test_indices rotating_permutation 1 3 1 (Some 42%Z).
Proof. split_and!; reflexivity. Qed.

(** ** Runs *)

Lemma run_bind_unfold {A B} (m : Run A) (f : A → Run B) :
  m ≫= f
  = match m.2 with
    | Ok a => (m.1 ++ (f a).1, (f a).2)
    | Raise e => (m.1, Raise e)
    end.
Proof. reflexivity. Qed.

Lemma run_bind_events {A B} (P : Event → Prop) (m : Run A) (f : A → Run B) :
  Forall P m.1 → (∀ a, m.2 = Ok a → Forall P (f a).1) → Forall P (m ≫= f).1.
Proof.
  intros Hm Hf. rewrite run_bind_unfold.
  destruct m.2 as [a|e]; cbn; [|done].
  apply Forall_app. split; [done|by apply Hf].
Qed.

Lemma run_bind_raises {A B} (m : Run A) (f : A → Run B) e :
  m.2 = Raise e → (m ≫= f).2 = Raise e.
Proof. intros Hm. rewrite run_bind_unfold. by rewrite Hm. Qed.

Lemma run_bind_result {A B} (m : Run A) (f : A → Run B) a :
  m.2 = Ok a → (m ≫= f).2 = (f a).2.
Proof. intros Hm. rewrite run_bind_unfold. by rewrite Hm. Qed.

Lemma run_bind_last {A B} (m : Run A) (f : A → Run B) a ev :
  m.2 = Ok a → last (f a).1 = Some ev → last (m ≫= f).1 = Some ev.
Proof.
  intros Hm Hev. rewrite run_bind_unfold, Hm. cbn.
  rewrite last_app. by rewrite Hev.
Qed.

Lemma try_except_events {A} (P : Event → Prop) (body handler : Run A) :
  Forall P body.1 → Forall P handler.1 → Forall P (try_except body handler).1.
Proof.
  intros Hbody Hhandler. unfold try_except.
  destruct body.2; cbn; [done|]. by apply Forall_app.
Qed.

Ltac run_events :=
  repeat first
    [ apply Forall_nil_2
    | apply run_bind_events; [|intros ? ?]
    | apply try_except_events
    | progress (unfold perform, pure_step, mret, run_ret; cbn [fst snd])
    | apply Forall_cons_2; [try done|] ].

(** ** The run stops at a split that cannot be made *)

Section small_dataset.
Variable permutation : Z → nat → list nat.
Variable w : World.

Lemma load_model_and_tokenizer_events (P : Event → Prop) model_args training_args :
  (∀ name cache, P (ModelFromPretrained name cache)) →
  (∀ name n cache, P (TokenizerFromPretrained name n cache)) →
  Forall P (load_model_and_tokenizer w model_args training_args).1.
Proof. intros Hmodel Htok. unfold load_model_and_tokenizer. run_events. Qed.

Lemma wrap_model_events (P : Event → Prop) training_args model :
  P EnableInputRequireGrads → (∀ cfg, P (GetPeftModel cfg)) → P PrintTrainableParameters →
  Forall P (wrap_model training_args model).1.
Proof.
  intros Hgrads Hpeft Hprint. unfold wrap_model.
  destruct (use_lora training_args); run_events.
Qed.

Lemma load_data_events (P : Event → Prop) data_args :
  (∀ path, P (LoadFromDisk path)) → (∀ path split, P (LoadDataset path split)) →
  Forall P (load_data w data_args).1.
Proof.
  intros Hdisk Hhub. rewrite load_data_run.
  destruct (disk_datasets w (data_path data_args)); run_events.
Qed.

Lemma transform_and_split_events (P : Event → Prop) dataset tokenizer :
  P (SetTransform (DatasetTransform tokenizer)) → (∀ n seed, P (TrainTestSplit n seed)) →
  Forall P (transform_and_split permutation w dataset tokenizer).1.
Proof.
  intros Hset Hsplit. unfold transform_and_split.
  apply run_bind_events; [by run_events|].
  intros loaded [= <-]. destruct dataset; run_events.
Qed.

Lemma transform_and_split_small (d : Dataset) tokenizer :
  0 < length (rows d) → length (rows d) ≤ 1000 →
  transform_and_split permutation w (ADataset d) tokenizer
  = ([SetTransform (DatasetTransform tokenizer); TrainTestSplit 1000 (Some 42%Z)],
     Raise ValueError).
Proof.
  intros Hrows Hsmall. unfold transform_and_split.
  rewrite run_bind_unfold. cbn [perform fst snd set_transform].
  by rewrite train_test_split_raises.
Qed.

(** C10, amended: when the dataset that loading yields has at least one
    and at most 1000 rows, the split with test size 1000 raises
    [ValueError], for any seed and format; nothing in [train] catches it, so
    the run ends with an exception and without a single call of the trainer;
    and when the earlier steps returned, the exception of the run is that
    [ValueError] and the split is the last call made.  A dataset without
    rows is outside this: the split returns it as both partitions. *)
Theorem train_stops_at_split_of_small_dataset (model_args : ModelArguments)
    (data_args : DataArguments) (training_args : TrainingArguments) (d : Dataset) :
  (load_data w data_args).2 = Ok (ADataset d) →
  0 < length (rows d) ≤ 1000 →
  (∀ entropy seed f,
     Split.train_test_split permutation entropy (with_format f d) 1000 seed
     = Raise ValueError)
  ∧ (∃ e, (train permutation w model_args data_args training_args).2 = Raise e)
  ∧ Forall (fun ev => is_training ev = false)
      (train permutation w model_args data_args training_args).1
  ∧ ∀ model tokenizer wrapped,
      (load_model_and_tokenizer w model_args training_args).2 = Ok (model, tokenizer) →
      (wrap_model training_args model).2 = Ok wrapped →
      (train permutation w model_args data_args training_args).2 = Raise ValueError
      ∧ last (train permutation w model_args data_args training_args).1
        = Some (TrainTestSplit 1000 (Some 42%Z)).
Proof.
  intros Hload [Hrows Hsmall]. split_and!.
  - intros entropy seed f. by apply train_test_split_raises.
  - unfold train.
    destruct (load_model_and_tokenizer w model_args training_args).2
      as [[model tokenizer]|e] eqn:Hfirst; [|by eexists; apply run_bind_raises].
    rewrite (run_bind_result _ _ _ Hfirst).
    destruct (wrap_model training_args model).2 as [wrapped|e] eqn:Hwrap;
      [|by eexists; apply run_bind_raises].
    rewrite (run_bind_result _ _ _ Hwrap), (run_bind_result _ _ _ Hload).
    exists ValueError. apply run_bind_raises.
    by rewrite transform_and_split_small.
  - unfold train. apply run_bind_events.
    { by apply load_model_and_tokenizer_events. }
    intros [model tokenizer] _. apply run_bind_events.
    { by apply wrap_model_events. }
    intros wrapped _. apply run_bind_events.
    { by apply load_data_events. }
    intros dataset Hdataset. apply run_bind_events.
    { by apply transform_and_split_events. }
    intros splits Hsplits. rewrite Hload in Hdataset. injection Hdataset as <-.
    by rewrite transform_and_split_small in Hsplits.
  - intros model tokenizer wrapped Hfirst Hwrap. unfold train. split.
    + rewrite (run_bind_result _ _ _ Hfirst), (run_bind_result _ _ _ Hwrap),
        (run_bind_result _ _ _ Hload).
      apply run_bind_raises. by rewrite transform_and_split_small.
    + eapply run_bind_last; [exact Hfirst|]. eapply run_bind_last; [exact Hwrap|].
      eapply run_bind_last; [exact Hload|].
      rewrite run_bind_unfold, transform_and_split_small by done. reflexivity.
Qed.

End small_dataset.

(** C10 as it was stated fails on a dataset without rows, which has at most
    1000 of them: the split returns the dataset itself as both partitions,
    nothing is raised, and the run goes on to train and to save. *)
Lemma train_on_empty_dataset_reaches_trainer :
  (load_data (demo_world 0) {| data_path := Some "data" |}).2
  = Ok (ADataset (demo_dataset 0))
  ∧ length (rows (demo_dataset 0)) ≤ 1000
  ∧ Split.train_test_split reverse_permutation 7
      (with_format (DatasetTransform padded_byte_tokenizer) (demo_dataset 0)) 1000 (Some 42%Z)
    = Ok (<["train" := with_format (DatasetTransform padded_byte_tokenizer) (demo_dataset 0)]>
          (<["test" := with_format (DatasetTransform padded_byte_tokenizer) (demo_dataset 0)]>
           ∅))
  ∧ (train reverse_permutation (demo_world 0) demo_model_args
       {| data_path := Some "data" |} (demo_training_args false)).2 = Ok ()
  ∧ existsb is_training
      (train reverse_permutation (demo_world 0) demo_model_args
         {| data_path := Some "data" |} (demo_training_args false)).1 = true.
Proof.
  split; [reflexivity|]. split; [cbn; lia|]. split; [reflexivity|].
  split; vm_compute; reflexivity.
Qed.

Lemma demo_load_small :
  (load_data (demo_world 3) {| data_path := Some "data" |}).2 = Ok (ADataset (demo_dataset 3)).
Proof. vm_compute. reflexivity. Qed.

Lemma train_stops_at_split_of_small_dataset_witness :
  (∀ entropy seed f,
     Split.train_test_split reverse_permutation entropy (with_format f (demo_dataset 3)) 1000 seed
     = Raise ValueError)
  ∧ (∃ e, (train reverse_permutation (demo_world 3) demo_model_args
             {| data_path := Some "data" |} (demo_training_args true)).2 = Raise e)
  ∧ Forall (fun ev => is_training ev = false)
      (train reverse_permutation (demo_world 3) demo_model_args
         {| data_path := Some "data" |} (demo_training_args true)).1
  ∧ ∀ model tokenizer wrapped,
      (load_model_and_tokenizer (demo_world 3) demo_model_args (demo_training_args true)).2
      = Ok (model, tokenizer) →
      (wrap_model (demo_training_args true) model).2 = Ok wrapped →
      (train reverse_permutation (demo_world 3) demo_model_args
         {| data_path := Some "data" |} (demo_training_args true)).2 = Raise ValueError
      ∧ last (train reverse_permutation (demo_world 3) demo_model_args
                {| data_path := Some "data" |} (demo_training_args true)).1
        = Some (TrainTestSplit 1000 (Some 42%Z)).
Proof.
  apply (train_stops_at_split_of_small_dataset reverse_permutation (demo_world 3)
           demo_model_args {| data_path := Some "data" |} (demo_training_args true)
           (demo_dataset 3)).
  - vm_compute. reflexivity.
  - vm_compute. lia.
Defined.

(** ** The pad token is the eos token *)


Section pad_token.
Variable permutation : Z → nat → list nat.
Variable w : World.

(** Line 78: the tokenizer that leaves the first step has its pad id set to
    its eos id. *)
Lemma load_model_and_tokenizer_pad model_args training_args model tokenizer :
  (load_model_and_tokenizer w model_args training_args).2 = Ok (model, tokenizer) →
  pad_is_eos tokenizer.
Proof.
  unfold load_model_and_tokenizer. rewrite !run_bind_unfold. cbn [perform fst snd].
  destruct (hub_models w _ _) as [m|]; [|done]. rewrite !run_bind_unfold. cbn [fst snd].
  destruct (hub_tokenizers w _ _) as [t|]; [|done]. cbn.
  by intros [= _ <-].
Qed.

Lemma transform_and_split_formats dataset tokenizer splits key split :
  (transform_and_split permutation w dataset tokenizer).2 = Ok splits →
  splits !! key = Some split →
  format split = Some (DatasetTransform tokenizer).
Proof.
  unfold transform_and_split. rewrite run_bind_unfold. cbn [perform fst snd].
  destruct dataset as [d|d]; [|done]. cbn [set_transform].
  intros Hsplit Hkey.
  by rewrite (train_test_split_format _ _ _ _ _ _ _ _ Hsplit Hkey).
Qed.

Lemma run_trainer_tokenizers model training_args splits tokenizer :
  pad_is_eos tokenizer →
  (∀ key split, splits !! key = Some split → format split = Some (DatasetTransform tokenizer)) →
  Forall (fun ev => Forall pad_is_eos (event_tokenizers ev))
    (run_trainer w model training_args splits tokenizer).1.
Proof.
  intros Hpad Hformat. unfold run_trainer.
  apply run_bind_events; [apply Forall_nil_2|]. intros train_split Htrain.
  apply run_bind_events; [apply Forall_nil_2|]. intros test_split Htest.
  unfold pure_step, getitem in Htrain, Htest. cbn [snd] in Htrain, Htest.
  destruct (splits !! "train") as [x|] eqn:Hx; [|done]. injection Htrain as ->.
  destruct (splits !! "test") as [y|] eqn:Hy; [|done]. injection Htest as ->.
  pose proof (Hformat _ _ Hx) as Hfx. pose proof (Hformat _ _ Hy) as Hfy.
  assert (Forall pad_is_eos [tokenizer; tokenizer; tokenizer; tokenizer]) as Hall
    by (by repeat constructor).
  apply run_bind_events.
  { apply Forall_cons_2; [|apply Forall_nil_2]. cbn. by rewrite Hfx, Hfy. }
  intros _ _. apply run_bind_events.
  { apply Forall_cons_2; [|apply Forall_nil_2]. cbn. by rewrite Hfx, Hfy. }
  intros _ _.
  apply Forall_cons_2; [|apply Forall_nil_2]. cbn. by rewrite Hfx, Hfy.
Qed.

(** C9: in every run of [train], every tokenizer handed to a library, to
    the transform of the dataset, to the trainer, to the collator, and in the
    format of the datasets the trainer gets, has its pad id equal to its eos
    id: the equality is set on the tokenizer as it is loaded and nothing
    later changes it.  With such a tokenizer, every position of the
    transform's [input_ids] under attention mask 0 holds the eos id. *)
Theorem train_pad_token_is_eos_token (model_args : ModelArguments)
    (data_args : DataArguments) (training_args : TrainingArguments) :
  Forall (fun ev => Forall pad_is_eos (event_tokenizers ev))
    (train permutation w model_args data_args training_args).1
  ∧ (∀ model tokenizer,
       (load_model_and_tokenizer w model_args training_args).2 = Ok (model, tokenizer) →
       pad_is_eos tokenizer)
  ∧ ∀ tokenizer batch out,
      pad_is_eos tokenizer → dataset_transform batch tokenizer = Ok out →
      ∃ eos ids mask,
        eos_token_id tokenizer = Some eos
        ∧ out !! "input_ids" = Some ids ∧ out !! "attention_mask" = Some mask
        ∧ ∀ i j, Tensor.at2 mask i j = Some 0%Z → Tensor.at2 ids i j = Some eos.
Proof.
  split_and!.
  - unfold train. apply run_bind_events.
    { apply load_model_and_tokenizer_events; intros; apply Forall_nil_2. }
    intros [model tokenizer] Hfirst%load_model_and_tokenizer_pad. apply run_bind_events.
    { apply wrap_model_events; intros; apply Forall_nil_2. }
    intros wrapped _. apply run_bind_events.
    { apply load_data_events; intros; apply Forall_nil_2. }
    intros dataset _. apply run_bind_events.
    { apply transform_and_split_events; [|intros; apply Forall_nil_2].
      cbn. by repeat constructor. }
    intros splits Hsplits. apply run_trainer_tokenizers; [done|].
    intros key split. by apply (transform_and_split_formats dataset).
  - intros model tokenizer. apply load_model_and_tokenizer_pad.
  - intros tokenizer batch out Hpad Hout.
    destruct (dataset_transform_padding_is_pad_token _ _ _ Hout)
      as (pad & ids & mask & Hsome & Hids & Hmask & Hpos).
    exists pad, ids, mask. split_and!; [|done..]. by rewrite <-Hpad.
Qed.

End pad_token.

(** The run on a disk dataset of 1003 rows goes through: the trainer gets
    1003 - 1000 rows to train on and 1000 to evaluate on, and the run ends
    with the model saved. *)
Example train_demo_run :
  let run := train reverse_permutation (demo_world 1003) demo_model_args
               {| data_path := Some "data" |} (demo_training_args true) in
  run.2 = Ok ()
  ∧ (fun ev => match ev with
               | TrainerTrain t =>
                   Some (length (rows (train_dataset t)), length (rows (eval_dataset t)))
               | _ => None
               end) <$> run.1
    = [None; None; None; None; None; None; None; None; Some (3, 1000); None; None]
  ∧ existsb is_remote_fetch run.1 = false.
Proof. vm_compute. done. Qed.

(** ** More on the batch transform *)

(** The function is the column lookup, the call, and [label_outputs]. *)
Lemma dataset_transform_label_outputs batch tok :
  dataset_transform batch tok
  = prompts ← getitem batch "prompt";
    outputs ← TokenizerCall.call tok prompts LONGEST true (Some 512);
    label_outputs outputs.
Proof. reflexivity. Qed.

Lemma eq_scalar_shape (x : Tensor.t) v :
  length <$> Tensor.eq_scalar x v = length <$> x.
Proof.
  unfold Tensor.eq_scalar. rewrite <-list_fmap_compose.
  apply list_fmap_ext. intros i row _. cbn. by rewrite length_fmap.
Qed.

Lemma shape_lookup {A B} (x : list (list A)) (y : list (list B)) i row :
  length <$> x = length <$> y → x !! i = Some row →
  ∃ row', y !! i = Some row' ∧ length row' = length row.
Proof.
  intros Hshape Hrow. apply (f_equal (.!! i)) in Hshape.
  rewrite !list_lookup_fmap, Hrow in Hshape. cbn in Hshape.
  destruct (y !! i) as [row'|]; [|done]. exists row'. split; [done|].
  by injection Hshape.
Qed.

(** The two outcomes of [label_outputs], by the lengths of the rows of the
    ids and of the mask. *)
Lemma label_outputs_cases (outputs : TokenizerCall.BatchEncoding) :
  match label_outputs outputs with
  | Ok out =>
      length <$> TokenizerCall.input_ids outputs
      = length <$> TokenizerCall.attention_mask outputs
      ∧ out !! "input_ids" = Some (TokenizerCall.input_ids outputs)
      ∧ out !! "attention_mask" = Some (TokenizerCall.attention_mask outputs)
      ∧ ∃ labels,
          out !! "labels" = Some labels
          ∧ length <$> labels = length <$> TokenizerCall.input_ids outputs
          ∧ ∀ i j a, Tensor.at2 (TokenizerCall.input_ids outputs) i j = Some a →
              ∃ m, Tensor.at2 (TokenizerCall.attention_mask outputs) i j = Some m
                ∧ Tensor.at2 labels i j
                  = Some (if bool_decide (m = 0%Z) then IGNORE_INDEX else a)
  | Raise e =>
      e = IndexError
      ∧ length <$> TokenizerCall.input_ids outputs
        ≠ length <$> TokenizerCall.attention_mask outputs
  end.
Proof.
  destruct outputs as [ids mask]. unfold label_outputs, Tensor.masked_assign,
    Tensor.same_shape, Tensor.clone. cbn [TokenizerCall.input_ids TokenizerCall.attention_mask].
  rewrite eq_scalar_shape. case_bool_decide as Hshape; cbn; [|done].
  destruct (transform_dict_lookups ids mask
              (zip_with (zip_with (fun a (b : bool) => if b then IGNORE_INDEX else a)) ids
                 (Tensor.eq_scalar mask 0))) as (Hids & Hmask & Hlabels).
  split_and!; [done..|]. eexists. split; [exact Hlabels|]. split.
  - apply list_eq. intros i. rewrite !list_lookup_fmap, lookup_zip_with.
    unfold Tensor.eq_scalar. rewrite list_lookup_fmap.
    destruct (ids !! i) as [row|] eqn:Hrow; [|done].
    destruct (shape_lookup ids mask i row Hshape Hrow) as (row' & -> & Hlen). cbn.
    rewrite length_zip_with, length_fmap. f_equal. lia.
  - intros i j a. unfold Tensor.at2, Tensor.eq_scalar.
    rewrite lookup_zip_with, list_lookup_fmap.
    destruct (ids !! i) as [row|] eqn:Hrow; [|done].
    destruct (shape_lookup ids mask i row Hshape Hrow) as (row' & -> & Hlen). cbn.
    intros Ha. destruct (lookup_lt_is_Some_2 row' j) as [m Hm].
    { rewrite Hlen. by eapply lookup_lt_Some. }
    exists m. split; [done|].
    by rewrite lookup_zip_with, list_lookup_fmap, Ha, Hm.
Qed.

(** X2: what [dataset_transform] does on every batch and tokenizer.  It
    returns exactly when the batch has a "prompt" column with at least one
    prompt and the tokenizer has a pad token; a missing column raises
    [KeyError] and an empty column or a missing pad token [ValueError].  No
    other exception leaves it: the assignment under the mask never fails on
    what the call returned. *)
Theorem dataset_transform_outcomes batch tok :
  match dataset_transform batch tok with
  | Ok _ =>
      ∃ prompts, batch !! "prompt" = Some prompts ∧ prompts ≠ []
                 ∧ is_Some (pad_token_id tok)
  | Raise e =>
      (e = KeyError ∧ batch !! "prompt" = None)
      ∨ (e = ValueError
         ∧ ∃ prompts, batch !! "prompt" = Some prompts
                      ∧ (prompts = [] ∨ pad_token_id tok = None))
  end.
Proof.
  destruct (batch !! "prompt") as [prompts|] eqn:Hbatch.
  2: { assert (dataset_transform batch tok = Raise KeyError) as ->
         by (unfold dataset_transform, getitem; by rewrite Hbatch).
       by left. }
  destruct (decide (prompts = [])) as [->|Hne].
  { assert (dataset_transform batch tok = Raise ValueError) as ->
      by (unfold dataset_transform, getitem; by rewrite Hbatch).
    right. eauto. }
  destruct (pad_token_id tok) as [pad|] eqn:Hpad.
  - rewrite (dataset_transform_eq _ _ _ _ Hbatch Hne Hpad). eauto.
  - assert (dataset_transform batch tok = Raise ValueError) as ->.
    { unfold dataset_transform, getitem. rewrite Hbatch. cbn.
      unfold TokenizerCall.call. rewrite Hpad. by destruct prompts. }
    right. eauto.
Qed.

Lemma mask_label_padded_row tok pad n (ids : list Z) :
  Forall (fun a => (0 ≤ a)%Z) ids →
  filter (fun l => l ≠ IGNORE_INDEX)
    (zip_with mask_label (TokenizerCall.pad_one tok pad n ids).1
       ((fun a => bool_decide (a = 0%Z)) <$> (TokenizerCall.pad_one tok pad n ids).2))
  = ids.
Proof.
  intros Hvocab.
  assert (∀ k, filter (fun l => l ≠ IGNORE_INDEX)
                 (zip_with mask_label (replicate k pad)
                    ((fun a => bool_decide (a = 0%Z)) <$> replicate k 0%Z)) = []) as Hpads.
  { induction k as [|k IH]; [done|]. cbn [replicate fmap list_fmap zip_with].
    rewrite filter_cons_False by (intros Hne; by apply Hne). exact IH. }
  assert (filter (fun l => l ≠ IGNORE_INDEX)
            (zip_with mask_label ids
               ((fun a => bool_decide (a = 0%Z)) <$> replicate (length ids) 1%Z)) = ids) as Hids.
  { induction Hvocab as [|a ids Ha _ IH]; [done|].
    cbn [length replicate fmap list_fmap zip_with].
    change (mask_label a (bool_decide (1%Z = 0%Z))) with a.
    rewrite filter_cons_True by (unfold IGNORE_INDEX; lia). by rewrite IH. }
  unfold TokenizerCall.pad_one. destruct (padding_side tok); cbn [fst snd].
  - rewrite fmap_app, zip_with_app by (by rewrite length_fmap, !length_replicate).
    by rewrite filter_app, Hpads, Hids.
  - rewrite fmap_app, zip_with_app by (by rewrite length_fmap, !length_replicate).
    by rewrite filter_app, Hpads, Hids, app_nil_r.
Qed.

Lemma prepare_for_model_fits tok text :
  TokenizerSpec tok → tokenized_length tok text ≤ 512 →
  TokenizerCall.prepare_for_model tok true 512 text
  = build_inputs_with_special_tokens tok (tokenize tok text).
Proof.
  intros Hspec Hfits. unfold TokenizerCall.prepare_for_model.
  unfold tokenized_length in Hfits. rewrite (special_tokens_length tok Hspec) in Hfits.
  unfold TokenizerCall.num_special_tokens_to_add. cbn [andb].
  by rewrite bool_decide_eq_false_2 by lia.
Qed.

(** X3: the labels give the prompts back.  In the dict the transform
    returns, row by row, the labels without the -100 entries are the ids of
    the prompt of that row as the call prepared them, on whichever side the
    padding is; and they are the ids of the whole prompt with its special
    tokens when these are at most 512. *)
Theorem dataset_transform_labels_without_ignore tok batch out :
  TokenizerSpec tok →
  dataset_transform batch tok = Ok out →
  ∃ prompts labels,
    batch !! "prompt" = Some prompts ∧ out !! "labels" = Some labels
    ∧ Forall2 (fun text row =>
                 filter (fun l => l ≠ IGNORE_INDEX) row
                 = TokenizerCall.prepare_for_model tok true 512 text
                 ∧ (tokenized_length tok text ≤ 512 →
                    filter (fun l => l ≠ IGNORE_INDEX) row
                    = build_inputs_with_special_tokens tok (tokenize tok text)))
        prompts labels.
Proof.
  intros Hspec Hout.
  apply dataset_transform_inv in Hout as (prompts & pad & Hbatch & _ & _ & ->).
  destruct (transform_dict_lookups (padded_rows tok pad prompts).*1
              (padded_rows tok pad prompts).*2
              (masked_labels (padded_rows tok pad prompts))) as (_ & _ & Hlabels).
  exists prompts, (masked_labels (padded_rows tok pad prompts)).
  split_and!; [done..|].
  apply Forall2_same_length_lookup. split.
  { pose proof (padded_rows_rectangular tok pad prompts) as Hrect.
    by rewrite (length_masked_labels _ _ Hrect), length_padded_rows. }
  intros i text row Htext. unfold masked_labels, Tensor.eq_scalar.
  rewrite lookup_zip_with, !list_lookup_fmap.
  destruct (padded_rows tok pad prompts !! i) as [padded|] eqn:Hpadded; [|done].
  apply padded_rows_lookup in Hpadded as (text' & Htext' & -> & _).
  rewrite Htext in Htext'. injection Htext' as <-. cbn. intros [= <-].
  assert (filter (fun l => l ≠ IGNORE_INDEX)
            (zip_with mask_label
               (TokenizerCall.pad_one tok pad (batch_length tok prompts)
                  (TokenizerCall.prepare_for_model tok true 512 text)).1
               ((fun a => bool_decide (a = 0%Z))
                  <$> (TokenizerCall.pad_one tok pad (batch_length tok prompts)
                         (TokenizerCall.prepare_for_model tok true 512 text)).2))
          = TokenizerCall.prepare_for_model tok true 512 text) as Hrow
    by (by apply mask_label_padded_row, prepare_for_model_vocab).
  split; [exact Hrow|].
  intros Hfits. by rewrite Hrow, prepare_for_model_fits.
Qed.

Lemma dataset_transform_labels_without_ignore_witness :
  ∃ prompts labels,
    demo_batch !! "prompt" = Some prompts ∧ demo_output !! "labels" = Some labels
    ∧ Forall2 (fun text row =>
                 filter (fun l => l ≠ IGNORE_INDEX) row
                 = TokenizerCall.prepare_for_model padded_byte_tokenizer true 512 text
                 ∧ (tokenized_length padded_byte_tokenizer text ≤ 512 →
                    filter (fun l => l ≠ IGNORE_INDEX) row
                    = build_inputs_with_special_tokens padded_byte_tokenizer
                        (tokenize padded_byte_tokenizer text)))
        prompts labels.
Proof.
  apply (dataset_transform_labels_without_ignore padded_byte_tokenizer demo_batch).
  - exact byte_tokenizer_spec.
  - vm_compute. reflexivity.
Defined.

Lemma mask_label_attended (ids : list Z) :
  zip_with mask_label ids ((fun a => bool_decide (a = 0%Z)) <$> replicate (length ids) 1%Z)
  = ids.
Proof. induction ids as [|a ids IH]; [done|]. cbn. by rewrite IH. Qed.

Lemma pad_one_full tok pad (ids : list Z) :
  TokenizerCall.pad_one tok pad (length ids) ids = (ids, replicate (length ids) 1%Z).
Proof.
  unfold TokenizerCall.pad_one. rewrite Nat.sub_diag.
  destruct (padding_side tok); cbn; by rewrite ?app_nil_r.
Qed.

(** X4: a prompt that is a longest one of its batch gets no padding and no
    ignored label: its row of [input_ids] and its row of [labels] are both
    its prepared ids, and its mask is all 1.  So it is for the one prompt of
    a batch of one. *)
Theorem dataset_transform_longest_prompt_unpadded tok batch out :
  dataset_transform batch tok = Ok out →
  ∃ prompts ids mask labels,
    batch !! "prompt" = Some prompts
    ∧ out !! "input_ids" = Some ids ∧ out !! "attention_mask" = Some mask
    ∧ out !! "labels" = Some labels
    ∧ ∀ i text, prompts !! i = Some text →
        length (TokenizerCall.prepare_for_model tok true 512 text) = batch_length tok prompts
        ∨ prompts = [text] →
        ids !! i = Some (TokenizerCall.prepare_for_model tok true 512 text)
        ∧ labels !! i = Some (TokenizerCall.prepare_for_model tok true 512 text)
        ∧ mask !! i
          = Some (replicate (length (TokenizerCall.prepare_for_model tok true 512 text)) 1%Z).
Proof.
  intros Hout.
  apply dataset_transform_inv in Hout as (prompts & pad & Hbatch & _ & _ & ->).
  destruct (transform_dict_lookups (padded_rows tok pad prompts).*1
              (padded_rows tok pad prompts).*2
              (masked_labels (padded_rows tok pad prompts))) as (Hids & Hmask & Hlabels).
  eexists prompts, _, _, _. split_and!; [done..|].
  intros i text Htext Hlongest.
  assert (length (TokenizerCall.prepare_for_model tok true 512 text)
          = batch_length tok prompts) as Hlen.
  { destruct Hlongest as [?| ->]; [done|].
    unfold batch_length, TokenizerCall.padded_length. cbn. lia. }
  assert (padded_rows tok pad prompts !! i
          = Some (TokenizerCall.prepare_for_model tok true 512 text,
                  replicate (length (TokenizerCall.prepare_for_model tok true 512 text)) 1%Z))
    as Hrow.
  { unfold padded_rows. rewrite !list_lookup_fmap, Htext. cbn.
    change (TokenizerCall.padded_length _) with (batch_length tok prompts).
    by rewrite <-Hlen, pad_one_full. }
  split_and!.
  - by rewrite list_lookup_fmap, Hrow.
  - unfold masked_labels, Tensor.eq_scalar.
    rewrite lookup_zip_with, !list_lookup_fmap, Hrow. cbn.
    by rewrite mask_label_attended.
  - by rewrite list_lookup_fmap, Hrow.
Qed.

Lemma dataset_transform_longest_prompt_unpadded_witness :
  ∃ prompts ids mask labels,
    demo_batch !! "prompt" = Some prompts
    ∧ demo_output !! "input_ids" = Some ids ∧ demo_output !! "attention_mask" = Some mask
    ∧ demo_output !! "labels" = Some labels
    ∧ ∀ i text, prompts !! i = Some text →
        length (TokenizerCall.prepare_for_model padded_byte_tokenizer true 512 text)
        = batch_length padded_byte_tokenizer prompts
        ∨ prompts = [text] →
        ids !! i = Some (TokenizerCall.prepare_for_model padded_byte_tokenizer true 512 text)
        ∧ labels !! i
          = Some (TokenizerCall.prepare_for_model padded_byte_tokenizer true 512 text)
        ∧ mask !! i
          = Some (replicate
                    (length (TokenizerCall.prepare_for_model padded_byte_tokenizer true 512 text))
                    1%Z).
Proof.
  apply (dataset_transform_longest_prompt_unpadded padded_byte_tokenizer demo_batch).
  vm_compute. reflexivity.
Defined.

(** ** More on dataset loading *)

(** X5: loading raises only what the remote fetch raises.  It fails exactly
    when the local load failed and the remote fetch failed too, and the
    exception that leaves it is the one of the remote fetch: the exception
    of the local load is dropped, whatever it was. *)
Theorem load_data_raises_the_remote_error (w : World) (data_args : DataArguments) e :
  (load_data w data_args).2 = Raise e
  ↔ (∃ e_local, disk_datasets w (data_path data_args) = Raise e_local)
    ∧ hub_datasets w (data_path data_args) "train" = Raise e.
Proof.
  rewrite load_data_run.
  destruct (disk_datasets w (data_path data_args)) as [loaded|e_local]; cbn.
  - split; [done|]. by intros [[? ?] _].
  - destruct (hub_datasets w (data_path data_args) "train") as [d|e_remote]; cbn.
    + split; [done|]. by intros [_ ?].
    + split.
      * intros [= ->]. eauto.
      * by intros [_ [= ->]].
Qed.

(** ** More on the run of [train] *)

Lemma increasing_nil : increasing [].
Proof. by intros i j a b ?. Qed.

Lemma increasing_app l1 l2 :
  increasing l1 → increasing l2 → (∀ a b, a ∈ l1 → b ∈ l2 → a < b) →
  increasing (l1 ++ l2).
Proof.
  intros H1 H2 Hcross i j a b Ha Hb Hij.
  apply lookup_app_Some in Ha as [Ha|[Hi Ha]];
    apply lookup_app_Some in Hb as [Hb|[Hj Hb]].
  - by eapply H1.
  - apply Hcross; by eapply list_elem_of_lookup_2.
  - apply lookup_lt_Some in Hb. lia.
  - eapply H2; [exact Ha|exact Hb|lia].
Qed.

Lemma within_silent {A} lo hi (r : result A) : within lo hi (([], r) : Run A).
Proof. split; [apply increasing_nil|apply Forall_nil_2]. Qed.

Lemma within_perform {A} lo hi ev (answer : result A) :
  lo ≤ stage ev < hi → within lo hi (perform ev answer).
Proof.
  intros Hstage. split; [|by apply Forall_singleton].
  intros i j a b Ha Hb Hij. apply lookup_lt_Some in Hb. cbn in Hb.
  apply lookup_lt_Some in Ha. cbn in Ha. lia.
Qed.

Lemma within_weaken {A} lo hi lo' hi' (m : Run A) :
  lo' ≤ lo → hi ≤ hi' → within lo hi m → within lo' hi' m.
Proof.
  intros Hlo Hhi [Hincr Hbounds]. split; [done|].
  eapply Forall_impl; [exact Hbounds|]. cbn. lia.
Qed.

Lemma within_append lo mid hi (t1 t2 : list Event) :
  increasing (stage <$> t1) → Forall (fun ev => lo ≤ stage ev < mid) t1 →
  increasing (stage <$> t2) → Forall (fun ev => mid ≤ stage ev < hi) t2 →
  lo ≤ mid → mid ≤ hi →
  increasing (stage <$> (t1 ++ t2)) ∧ Forall (fun ev => lo ≤ stage ev < hi) (t1 ++ t2).
Proof.
  intros Hi1 Hb1 Hi2 Hb2 Hlo Hhi. split.
  - rewrite fmap_app. apply increasing_app; [done..|].
    intros a b (ev1 & -> & Hev1)%list_elem_of_fmap (ev2 & -> & Hev2)%list_elem_of_fmap.
    rewrite Forall_forall in Hb1, Hb2.
    specialize (Hb1 _ Hev1). specialize (Hb2 _ Hev2). lia.
  - apply Forall_app. split; (eapply Forall_impl; [eassumption|]); cbn; lia.
Qed.

Lemma within_bind {A B} lo mid hi (m : Run A) (f : A → Run B) :
  lo ≤ mid → mid ≤ hi →
  within lo mid m → (∀ a, m.2 = Ok a → within mid hi (f a)) →
  within lo hi (m ≫= f).
Proof.
  intros Hlo Hhi [Hincr Hbounds] Hf. rewrite run_bind_unfold.
  destruct m.2 as [a|e]; cbn.
  - destruct (Hf a eq_refl) as [Hincr' Hbounds']. by eapply within_append.
  - split; [done|]. eapply Forall_impl; [exact Hbounds|]. cbn. lia.
Qed.

Lemma within_try_except {A} lo mid hi (body handler : Run A) :
  lo ≤ mid → mid ≤ hi →
  within lo mid body → within mid hi handler → within lo hi (try_except body handler).
Proof.
  intros Hlo Hhi [Hincr Hbounds] [Hincr' Hbounds']. unfold try_except.
  destruct body.2 as [a|e]; cbn.
  - split; [done|]. eapply Forall_impl; [exact Hbounds|]. cbn. lia.
  - by eapply within_append.
Qed.

Section call_order.
Variable permutation : Z → nat → list nat.
Variable w : World.

Lemma load_model_and_tokenizer_within model_args training_args :
  within 0 2 (load_model_and_tokenizer w model_args training_args).
Proof.
  unfold load_model_and_tokenizer.
  apply (within_bind 0 1 2); [lia..|by apply within_perform; cbn; lia|]. intros model _.
  apply (within_bind 1 2 2); [lia..|by apply within_perform; cbn; lia|]. intros tokenizer _.
  apply within_silent.
Qed.

Lemma wrap_model_within training_args model :
  within 2 5 (wrap_model training_args model).
Proof.
  unfold wrap_model. destruct (use_lora training_args); [|apply within_silent].
  apply (within_bind 2 3 5); [lia..|by apply within_perform; cbn; lia|]. intros _ _.
  apply (within_bind 3 4 5); [lia..|by apply within_perform; cbn; lia|]. intros wrapped _.
  apply (within_bind 4 5 5); [lia..|by apply within_perform; cbn; lia|]. intros _ _.
  apply within_silent.
Qed.

Lemma load_data_within data_args : within 5 7 (load_data w data_args).
Proof.
  unfold load_data. apply (within_try_except 5 6 7); [lia..| |].
  - apply (within_bind 5 6 6); [lia..|by apply within_perform; cbn; lia|]. intros dataset _.
    destruct (contains "train" dataset); apply within_silent.
  - apply within_perform. cbn. lia.
Qed.

Lemma transform_and_split_within dataset tokenizer :
  within 7 9 (transform_and_split permutation w dataset tokenizer).
Proof.
  unfold transform_and_split.
  apply (within_bind 7 8 9); [lia..|by apply within_perform; cbn; lia|]. intros loaded _.
  destruct loaded; [apply within_perform; cbn; lia|apply within_silent].
Qed.

Lemma run_trainer_within model training_args splits tokenizer :
  within 9 12 (run_trainer w model training_args splits tokenizer).
Proof.
  unfold run_trainer.
  apply (within_bind 9 9 12); [lia..|apply within_silent|]. intros train_split _.
  apply (within_bind 9 9 12); [lia..|apply within_silent|]. intros test_split _.
  apply (within_bind 9 10 12); [lia..|by apply within_perform; cbn; lia|]. intros _ _.
  apply (within_bind 10 11 12); [lia..|by apply within_perform; cbn; lia|]. intros _ _.
  apply within_perform. cbn. lia.
Qed.

(** X6: in every run of [train], whatever the world answers, the calls
    are made in the order of the text, each at most once: the model before
    the tokenizer, both before the adapter calls, these before the local
    load, the remote fetch after it, then the transform, the split, training,
    saving the state, saving the model. *)
Theorem train_calls_in_order (model_args : ModelArguments) (data_args : DataArguments)
    (training_args : TrainingArguments) :
  increasing (stage <$> (train permutation w model_args data_args training_args).1).
Proof.
  cut (within 0 12 (train permutation w model_args data_args training_args));
    [by intros [? _]|].
  unfold train.
  apply (within_bind 0 2 12); [lia..|apply load_model_and_tokenizer_within|].
  intros [model tokenizer] _.
  apply (within_bind 2 5 12); [lia..|apply wrap_model_within|]. intros wrapped _.
  apply (within_bind 5 7 12); [lia..|apply load_data_within|]. intros dataset _.
  apply (within_bind 7 9 12); [lia..|apply transform_and_split_within|]. intros splits _.
  apply run_trainer_within.
Qed.

End call_order.

Section stages.
Variable permutation : Z → nat → list nat.
Variable w : World.

Lemma load_model_and_tokenizer_inv model_args training_args model tokenizer :
  (load_model_and_tokenizer w model_args training_args).2 = Ok (model, tokenizer) →
  hub_models w (model_name_or_path model_args) (cache_dir training_args) = Ok model
  ∧ ∃ loaded,
      hub_tokenizers w (model_name_or_path model_args) (cache_dir training_args) = Ok loaded
      ∧ tokenizer
        = set_pad_token_id
            (set_model_max_length loaded (training_model_max_length training_args))
            (eos_token_id loaded).
Proof.
  unfold load_model_and_tokenizer. rewrite !run_bind_unfold. cbn [perform fst snd].
  destruct (hub_models w _ _) as [m|]; [|done]. rewrite !run_bind_unfold. cbn [fst snd].
  destruct (hub_tokenizers w _ _) as [t|]; [|done]. cbn.
  intros [= <- <-]. eauto.
Qed.

Lemma wrap_model_inv training_args model wrapped :
  (wrap_model training_args model).2 = Ok wrapped →
  if use_lora training_args
  then Wrapped <$> Peft.get_peft_model model peft_config = Ok wrapped
  else wrapped = Plain model.
Proof.
  destruct (use_lora training_args) eqn:Hlora.
  - by rewrite (wrap_model_lora _ _ Hlora).
  - unfold wrap_model. rewrite Hlora. by intros [= <-].
Qed.

Lemma transform_and_split_inv dataset tokenizer splits :
  (transform_and_split permutation w dataset tokenizer).2 = Ok splits →
  ∃ d, dataset = ADataset d
       ∧ Split.train_test_split permutation (os_entropy w)
           (with_format (DatasetTransform tokenizer) d) 1000 (Some 42%Z) = Ok splits.
Proof.
  unfold transform_and_split. rewrite run_bind_unfold. cbn [perform fst snd].
  destruct dataset as [d|d]; [|done]. cbn. eauto.
Qed.

Lemma train_test_split_inv entropy (d : Dataset) test_size seed splits :
  Split.train_test_split permutation entropy d test_size seed = Ok splits →
  (rows d = [] ∧ splits = <["train" := d]> (<["test" := d]> ∅))
  ∨ (0 < length (rows d)
     ∧ ∃ train_indices test_indices train_split test_split,
         Split.train_test_indices permutation entropy (length (rows d)) test_size seed
         = Ok (train_indices, test_indices)
         ∧ Split.select d train_indices = Ok train_split
         ∧ Split.select d test_indices = Ok test_split
         ∧ splits = <["train" := train_split]> (<["test" := test_split]> ∅)).
Proof.
  unfold Split.train_test_split. case_bool_decide as Hempty.
  { intros [= <-]. left. split; [|done]. by apply length_zero_iff_nil. }
  destruct (Split.train_test_indices _ _ _ _ _) as [[train_indices test_indices]|] eqn:Hi;
    [|done].
  cbn. destruct (Split.select d train_indices) as [train_split|] eqn:Htrain; [|done].
  cbn. destruct (Split.select d test_indices) as [test_split|] eqn:Htest; [|done].
  cbn. intros [= <-]. right. split; [lia|]. by eexists _, _, _, _.
Qed.

(** The run of lines 105-115 on the two splits. *)
Lemma run_trainer_run model training_args (splits : gmap string Dataset) tokenizer
    train_split test_split :
  splits !! "train" = Some train_split → splits !! "test" = Some test_split →
  run_trainer w model training_args splits tokenizer
  = match training w (make_trainer model training_args train_split test_split tokenizer) with
    | Raise e =>
        ([TrainerTrain (make_trainer model training_args train_split test_split tokenizer)],
         Raise e)
    | Ok _ =>
        match saving_state w
                (make_trainer model training_args train_split test_split tokenizer) with
        | Raise e =>
            ([TrainerTrain (make_trainer model training_args train_split test_split tokenizer);
              TrainerSaveState
                (make_trainer model training_args train_split test_split tokenizer)],
             Raise e)
        | Ok _ =>
            ([TrainerTrain (make_trainer model training_args train_split test_split tokenizer);
              TrainerSaveState
                (make_trainer model training_args train_split test_split tokenizer);
              TrainerSaveModel
                (make_trainer model training_args train_split test_split tokenizer)
                (output_dir training_args)],
             saving_model w
               (make_trainer model training_args train_split test_split tokenizer)
               (output_dir training_args))
        end
    end.
Proof.
  intros Htrain Htest.
  unfold run_trainer, getitem, make_trainer, mbind, run_bind, pure_step, perform.
  rewrite Htrain, Htest. cbn [fst snd app].
  destruct (training w _); [|done]. cbn [fst snd app].
  by destruct (saving_state w _).
Qed.

(** Without both splits the trainer is not built. *)
Lemma run_trainer_missing_split model training_args (splits : gmap string Dataset) tokenizer :
  splits !! "train" = None ∨ splits !! "test" = None →
  run_trainer w model training_args splits tokenizer = ([], Raise KeyError).
Proof.
  intros Hmissing. unfold run_trainer, getitem.
  destruct (splits !! "train") as [train_split|]; [|done].
  destruct Hmissing as [?|Htest]; [done|]. by rewrite Htest.
Qed.

(** [train], stage by stage. *)
Lemma train_unfold model_args data_args training_args :
  train permutation w model_args data_args training_args
  = match (load_model_and_tokenizer w model_args training_args).2 with
    | Raise e => ((load_model_and_tokenizer w model_args training_args).1, Raise e)
    | Ok (model, tokenizer) =>
      match (wrap_model training_args model).2 with
      | Raise e =>
          ((load_model_and_tokenizer w model_args training_args).1
           ++ (wrap_model training_args model).1, Raise e)
      | Ok wrapped =>
        match (load_data w data_args).2 with
        | Raise e =>
            ((load_model_and_tokenizer w model_args training_args).1
             ++ (wrap_model training_args model).1 ++ (load_data w data_args).1, Raise e)
        | Ok dataset =>
          match (transform_and_split permutation w dataset tokenizer).2 with
          | Raise e =>
              ((load_model_and_tokenizer w model_args training_args).1
               ++ (wrap_model training_args model).1 ++ (load_data w data_args).1
               ++ (transform_and_split permutation w dataset tokenizer).1, Raise e)
          | Ok splits =>
              ((load_model_and_tokenizer w model_args training_args).1
               ++ (wrap_model training_args model).1 ++ (load_data w data_args).1
               ++ (transform_and_split permutation w dataset tokenizer).1
               ++ (run_trainer w wrapped training_args splits tokenizer).1,
               (run_trainer w wrapped training_args splits tokenizer).2)
          end
        end
      end
    end.
Proof.
  unfold train. rewrite run_bind_unfold.
  destruct (load_model_and_tokenizer w model_args training_args).2
    as [[model tokenizer]|]; [|done].
  rewrite run_bind_unfold.
  destruct (wrap_model training_args model).2 as [wrapped|]; [|done].
  rewrite run_bind_unfold. cbn [fst snd].
  destruct (load_data w data_args).2 as [dataset|]; [|done].
  rewrite run_bind_unfold. cbn [fst snd].
  by destruct (transform_and_split permutation w dataset tokenizer).2.
Qed.

End stages.

Lemma last_in {A} (l : list A) x : last l = Some x → x ∈ l.
Proof.
  rewrite last_lookup. apply list_elem_of_lookup_2.
Qed.

Section trainer_stage.
Variable permutation : Z → nat → list nat.
Variable w : World.

Lemma before_trainer_events model_args data_args training_args :
  Forall (fun ev => is_training ev = false)
    (load_model_and_tokenizer w model_args training_args).1
  ∧ (∀ model, Forall (fun ev => is_training ev = false) (wrap_model training_args model).1)
  ∧ Forall (fun ev => is_training ev = false) (load_data w data_args).1
  ∧ ∀ dataset tokenizer,
      Forall (fun ev => is_training ev = false)
        (transform_and_split permutation w dataset tokenizer).1.
Proof.
  split_and!; intros.
  - by apply load_model_and_tokenizer_events.
  - by apply wrap_model_events.
  - by apply load_data_events.
  - by apply transform_and_split_events.
Qed.

Lemma run_trainer_saved model training_args splits tokenizer :
  Forall (saved_in_order w (output_dir training_args))
    (run_trainer w model training_args splits tokenizer).1.
Proof.
  destruct (splits !! "train") as [train_split|] eqn:Htrain;
    [|rewrite run_trainer_missing_split by (by left); apply Forall_nil_2].
  destruct (splits !! "test") as [test_split|] eqn:Htest;
    [|rewrite run_trainer_missing_split by (by right); apply Forall_nil_2].
  rewrite (run_trainer_run _ _ _ _ _ _ _ Htrain Htest).
  destruct (training w _) as [[]|] eqn:Htraining; [|by repeat constructor].
  destruct (saving_state w _) as [[]|] eqn:Hstate; by repeat constructor.
Qed.

(** X7: nothing is saved unless what precedes it returned.  In every run
    of [train] the state is saved only by a trainer whose training returned,
    and the model only after that and the saving of the state returned, and
    only into [output_dir].  The run returns exactly when its last call is
    that saving of the model and it returned. *)
Theorem train_saves_only_after_training (model_args : ModelArguments)
    (data_args : DataArguments) (training_args : TrainingArguments) :
  Forall (saved_in_order w (output_dir training_args))
    (train permutation w model_args data_args training_args).1
  ∧ ((train permutation w model_args data_args training_args).2 = Ok ()
     ↔ ∃ t, last (train permutation w model_args data_args training_args).1
            = Some (TrainerSaveModel t (output_dir training_args))
            ∧ saving_model w t (output_dir training_args) = Ok ()).
Proof.
  destruct (before_trainer_events model_args data_args training_args)
    as (Hfirst & Hwrap & Hload & Hsplit).
  assert (∀ l, Forall (fun ev => is_training ev = false) l →
               Forall (saved_in_order w (output_dir training_args)) l) as Hquiet.
  { intros l Hl. eapply Forall_impl; [exact Hl|]. by intros []. }
  assert (∀ l t dir, Forall (fun ev => is_training ev = false) l →
                     last l ≠ Some (TrainerSaveModel t dir)) as Hlast.
  { intros l t dir Hl Hlast%last_in. rewrite Forall_forall in Hl. by apply Hl in Hlast. }
  rewrite train_unfold.
  destruct (load_model_and_tokenizer w model_args training_args).2
    as [[model tokenizer]|e1].
  2: { cbn [fst snd]. split; [by apply Hquiet|]. split; [done|].
       intros (t & Ht & _). by apply Hlast in Ht. }
  destruct (wrap_model training_args model).2 as [wrapped|e2].
  2: { cbn [fst snd]. split; [apply Hquiet; rewrite ?Forall_app; split_and?; auto|].
       split; [done|].
       intros (t & Ht & _). apply Hlast in Ht; [done|]. rewrite ?Forall_app; split_and?; auto. }
  destruct (load_data w data_args).2 as [dataset|e3].
  2: { cbn [fst snd]. split; [apply Hquiet; rewrite ?Forall_app; split_and?; auto|].
       split; [done|].
       intros (t & Ht & _). apply Hlast in Ht; [done|]. rewrite ?Forall_app; split_and?; auto. }
  destruct (transform_and_split permutation w dataset tokenizer).2 as [splits|e4] eqn:Hsplits.
  2: { cbn [fst snd]. split; [apply Hquiet; rewrite ?Forall_app; split_and?; auto|].
       split; [done|].
       intros (t & Ht & _). apply Hlast in Ht; [done|]. rewrite ?Forall_app; split_and?; auto. }
  cbn [fst snd]. split.
  { rewrite ?Forall_app; split_and?; auto using run_trainer_saved. }
  rewrite !app_assoc.
  set (pre := (((_ ++ _) ++ _) ++ (transform_and_split _ _ _ _).1)).
  assert (Forall (fun ev => is_training ev = false) pre) as Hpre
    by (unfold pre; rewrite ?Forall_app; split_and?; auto).
  destruct (splits !! "train") as [train_split|] eqn:Htrain.
  2: { rewrite run_trainer_missing_split by (by left). rewrite app_nil_r.
       split; [done|]. intros (t & Ht & _). by apply Hlast in Ht. }
  destruct (splits !! "test") as [test_split|] eqn:Htest.
  2: { rewrite run_trainer_missing_split by (by right). rewrite app_nil_r.
       split; [done|]. intros (t & Ht & _). by apply Hlast in Ht. }
  rewrite (run_trainer_run _ _ _ _ _ _ _ Htrain Htest).
  destruct (training w _) as [[]|] eqn:Htraining.
  2: { cbn [fst snd]. rewrite last_app. cbn [last]. split; [done|].
       by intros (t & [=] & _). }
  destruct (saving_state w _) as [[]|] eqn:Hstate; cbn [fst snd].
  2: { rewrite last_app. cbn [last]. split; [done|]. by intros (t & [=] & _). }
  rewrite last_app. cbn [last]. split.
  - intros Hsaved. eauto.
  - by intros (t & [= <-] & Hsaved).
Qed.

End trainer_stage.

Section trainer_events.
Variable permutation : Z → nat → list nat.
Variable w : World.

(** What holds of the trainer [train] builds holds of the trainer of every
    call of a run. *)
Lemma train_trainer_events (P : Trainer → Prop) model_args data_args training_args :
  (∀ model tokenizer wrapped dataset splits train_split test_split,
     (load_model_and_tokenizer w model_args training_args).2 = Ok (model, tokenizer) →
     (wrap_model training_args model).2 = Ok wrapped →
     (load_data w data_args).2 = Ok dataset →
     (transform_and_split permutation w dataset tokenizer).2 = Ok splits →
     splits !! "train" = Some train_split → splits !! "test" = Some test_split →
     P (make_trainer wrapped training_args train_split test_split tokenizer)) →
  Forall (fun ev => match event_trainer ev with Some t => P t | None => True end)
    (train permutation w model_args data_args training_args).1.
Proof.
  intros HP.
  destruct (before_trainer_events permutation w model_args data_args training_args)
    as (Hfirst & Hwrap & Hload & Hsplit).
  assert (∀ l, Forall (fun ev => is_training ev = false) l →
               Forall (fun ev => match event_trainer ev with Some t => P t | None => True end) l)
    as Hquiet.
  { intros l Hl. eapply Forall_impl; [exact Hl|]. by intros []. }
  rewrite train_unfold.
  destruct (load_model_and_tokenizer w model_args training_args).2
    as [[model tokenizer]|e1] eqn:H1; cbn [fst snd]; [|by apply Hquiet].
  destruct (wrap_model training_args model).2 as [wrapped|e2] eqn:H2; cbn [fst snd];
    [|rewrite ?Forall_app; split_and?; auto].
  destruct (load_data w data_args).2 as [dataset|e3] eqn:H3; cbn [fst snd];
    [|rewrite ?Forall_app; split_and?; auto].
  destruct (transform_and_split permutation w dataset tokenizer).2 as [splits|e4] eqn:H4;
    cbn [fst snd]; [|rewrite ?Forall_app; split_and?; auto].
  rewrite ?Forall_app; split_and?; auto.
  destruct (splits !! "train") as [train_split|] eqn:Htrain;
    [|rewrite run_trainer_missing_split by (by left); apply Forall_nil_2].
  destruct (splits !! "test") as [test_split|] eqn:Htest;
    [|rewrite run_trainer_missing_split by (by right); apply Forall_nil_2].
  rewrite (run_trainer_run _ _ _ _ _ _ _ Htrain Htest).
  specialize (HP _ _ _ _ _ _ _ eq_refl H2 eq_refl H4 Htrain Htest).
  destruct (training w _); [|by repeat constructor].
  destruct (saving_state w _); by repeat constructor.
Qed.

(** X8: the trainer of every run is made of what the run loaded.  In
    every call of the trainer the arguments are the parsed ones, the
    collator has the tokenizer of the trainer, which is the loaded one with
    [model_max_length] of the arguments and its eos id as pad id, the model
    is the loaded one, wrapped exactly when [use_lora] is on, and both
    datasets carry the transform with that same tokenizer. *)
Theorem train_trainer_built_from_loaded (model_args : ModelArguments)
    (data_args : DataArguments) (training_args : TrainingArguments) :
  Forall (fun ev => match event_trainer ev with
                    | Some t => trainer_built_from w model_args training_args t
                    | None => True
                    end)
    (train permutation w model_args data_args training_args).1.
Proof.
  apply train_trainer_events.
  intros model tokenizer wrapped dataset splits train_split test_split
    Hfirst Hwrap _ Hsplits Htrain Htest.
  apply load_model_and_tokenizer_inv in Hfirst as (Hmodel & loaded & Hloaded & ->).
  apply wrap_model_inv in Hwrap.
  unfold trainer_built_from, make_trainer. cbn [trainer_args data_collator trainer_tokenizer
    trainer_model train_dataset eval_dataset]. split_and!.
  - done.
  - done.
  - eauto.
  - eauto.
  - by eapply transform_and_split_formats.
  - by eapply transform_and_split_formats.
Qed.

End trainer_events.

(** ** The partitions the trainer gets *)

Lemma lookups_omap {A} (l sel : list A) (indices : list nat) :
  Forall2 (fun i x => l !! i = Some x) indices sel → omap (fun i => l !! i) indices = sel.
Proof.
  induction 1 as [|i x indices sel Hx _ IH]; [done|]. cbn. by rewrite Hx, IH.
Qed.

Lemma omap_lookup_seq_from {A} (pre l : list A) :
  omap (fun i => (pre ++ l) !! i) (seq (length pre) (length l)) = l.
Proof.
  revert pre. induction l as [|x l IH]; intros pre; [done|]. cbn.
  rewrite list_lookup_middle by done. f_equal.
  specialize (IH (pre ++ [x])). rewrite length_app, <-app_assoc in IH. cbn in IH.
  by rewrite Nat.add_1_r in IH.
Qed.

(** Rows looked up at a shuffle of all the indices are the rows, shuffled. *)
Lemma lookups_permutation {A} (l sel : list A) (indices : list nat) :
  Forall2 (fun i x => l !! i = Some x) indices sel →
  indices ≡ₚ seq 0 (length l) → sel ≡ₚ l.
Proof.
  intros Hsel Hperm. rewrite <-(lookups_omap _ _ _ Hsel), Hperm.
  pose proof (omap_lookup_seq_from [] l) as Hall. cbn in Hall. by rewrite Hall.
Qed.

Lemma select_inv (d selected : Dataset) indices :
  Split.select d indices = Ok selected →
  Forall2 (fun i row => rows d !! i = Some row) indices (rows selected).
Proof.
  unfold Split.select.
  destruct (mapM (fun i => rows d !! i) indices) as [sel|] eqn:Hsel; [|done].
  intros [= <-]. by apply mapM_Some_1.
Qed.

Lemma train_test_indices_inv permutation entropy n_samples test_size seed
    train_indices test_indices :
  0 < n_samples →
  Split.train_test_indices permutation entropy n_samples test_size seed
  = Ok (train_indices, test_indices) →
  (0 < test_size < Z.of_nat n_samples)%Z.
Proof.
  intros Hrows. unfold Split.train_test_indices.
  rewrite bool_decide_eq_false_2 by lia. case_bool_decide; [done|]. lia.
Qed.

Section partitions.
Variable permutation : Z → nat → list nat.
Variable w : World.
Hypothesis permutation_spec : ∀ s n, permutation s n ≡ₚ seq 0 n.

(** The two datasets of a split that returned hold the rows of the
    dataset: none at all when it has none, and otherwise its rows shuffled
    and cut after the first [test_size]. *)
Lemma train_test_split_rows entropy (d : Dataset) test_size seed splits
    (train_split test_split : Dataset) :
  Split.train_test_split permutation entropy d test_size seed = Ok splits →
  splits !! "train" = Some train_split → splits !! "test" = Some test_split →
  rows train_split ++ rows test_split ≡ₚ rows d
  ∧ ((rows d = [] ∧ rows train_split = [] ∧ rows test_split = [])
     ∨ ((0 < test_size < Z.of_nat (length (rows d)))%Z
        ∧ length (rows test_split) = Z.to_nat test_size
        ∧ length (rows train_split) = length (rows d) - Z.to_nat test_size)).
Proof.
  intros [[Hempty ->]|(Hrows & train_indices & test_indices & a & b & Hindices & Ha & Hb & ->)]
    %train_test_split_inv.
  { rewrite lookup_insert_eq. intros [= <-].
    rewrite lookup_insert_ne, lookup_insert_eq by done. intros [= <-].
    rewrite Hempty. split; [done|]. by left. }
  rewrite lookup_insert_eq. intros [= ->].
  rewrite lookup_insert_ne, lookup_insert_eq by done. intros [= ->].
  pose proof (train_test_indices_inv _ _ _ _ _ _ _ Hrows Hindices) as Hsize.
  destruct (train_test_indices_cut permutation permutation_spec entropy
              (length (rows d)) test_size seed Hsize)
    as (tri & tei & Hcut & Horder & Htest & Htrain).
  rewrite Hindices in Hcut. injection Hcut as <- <-.
  apply select_inv in Ha, Hb. split.
  - apply (lookups_permutation _ _ (train_indices ++ test_indices)).
    + by apply Forall2_app.
    + rewrite (Permutation_app_comm train_indices test_indices), Horder.
      apply permutation_spec.
  - right. split; [done|].
    by rewrite <-(Forall2_length _ _ _ Hb), <-(Forall2_length _ _ _ Ha).
Qed.

(** X9: between loading and training no record is lost or repeated.  In
    every run that reaches the trainer, the dataset that loading yielded is
    a single dataset and the two datasets of the trainer are its rows in a
    shuffled order.  That dataset has no rows at all, and then both
    datasets of the trainer are empty, or more than 1000 rows, and then
    1000 of them are for evaluation and the others for training. *)
Theorem train_partitions_the_loaded_rows (model_args : ModelArguments)
    (data_args : DataArguments) (training_args : TrainingArguments) :
  Forall (fun ev => match event_trainer ev with
                    | Some t =>
                        ∃ d, (load_data w data_args).2 = Ok (ADataset d)
                             ∧ trainer_partitions d t
                    | None => True
                    end)
    (train permutation w model_args data_args training_args).1.
Proof.
  apply train_trainer_events.
  intros model tokenizer wrapped dataset splits train_split test_split
    _ _ Hload Hsplits Htrain Htest.
  apply transform_and_split_inv in Hsplits as (d & -> & Hsplit).
  exists d. split; [done|].
  destruct (train_test_split_rows _ _ _ _ _ _ _ Hsplit Htrain Htest) as (Hrows & Hsizes).
  unfold trainer_partitions, make_trainer. cbn [train_dataset eval_dataset].
  change (rows (with_format (DatasetTransform tokenizer) d)) with (rows d) in *.
  change (Z.to_nat 1000) with 1000 in *.
  split; [done|].
  destruct Hsizes as [?|(Hsize & Heval & Htrain_rows)]; [by left|].
  right. split_and!; [lia|done..].
Qed.

End partitions.

Lemma train_partitions_the_loaded_rows_witness :
  Forall (fun ev => match event_trainer ev with
                    | Some t =>
                        ∃ d, (load_data (demo_world 1003) {| data_path := Some "data" |}).2
                             = Ok (ADataset d)
                             ∧ trainer_partitions d t
                    | None => True
                    end)
    (train reverse_permutation (demo_world 1003) demo_model_args
       {| data_path := Some "data" |} (demo_training_args false)).1.
Proof.
  apply (train_partitions_the_loaded_rows reverse_permutation (demo_world 1003)
           reverse_permutation_spec).
Defined.

(** ** Runs that end early *)

Section early_ends.
Variable permutation : Z → nat → list nat.
Variable w : World.

Lemma transform_and_split_dict (d : gmap string Dataset) tokenizer :
  transform_and_split permutation w (ADatasetDict d) tokenizer
  = ([SetTransform (DatasetTransform tokenizer)], Raise AttributeError).
Proof. reflexivity. Qed.

(** X10: a dict of splits without a "train" split is taken from the disk
    as it is: no remote fetch is made for it, the transform is set on it, and
    the run then ends at line 103 with [AttributeError], a dict having no
    [train_test_split]; the trainer is never called. *)
Theorem train_on_dict_without_train_split (model_args : ModelArguments)
    (data_args : DataArguments) (training_args : TrainingArguments)
    (d : gmap string Dataset) :
  disk_datasets w (data_path data_args) = Ok (ADatasetDict d) →
  d !! "train" = None →
  load_data w data_args = ([LoadFromDisk (data_path data_args)], Ok (ADatasetDict d))
  ∧ (∃ e, (train permutation w model_args data_args training_args).2 = Raise e)
  ∧ Forall (fun ev => is_training ev = false ∧ is_remote_fetch ev = false)
      (train permutation w model_args data_args training_args).1
  ∧ ∀ model tokenizer wrapped,
      (load_model_and_tokenizer w model_args training_args).2 = Ok (model, tokenizer) →
      (wrap_model training_args model).2 = Ok wrapped →
      (train permutation w model_args data_args training_args).2 = Raise AttributeError
      ∧ last (train permutation w model_args data_args training_args).1
        = Some (SetTransform (DatasetTransform tokenizer)).
Proof.
  intros Hdisk Hnone.
  assert (load_data w data_args
          = ([LoadFromDisk (data_path data_args)], Ok (ADatasetDict d))) as Hload.
  { rewrite load_data_run, Hdisk. cbn. by rewrite Hnone. }
  split; [done|]. rewrite train_unfold, Hload. cbn [fst snd].
  pose proof (load_model_and_tokenizer_events w
                (fun ev => is_training ev = false ∧ is_remote_fetch ev = false)
                model_args training_args) as Hfirst.
  destruct (load_model_and_tokenizer w model_args training_args).2
    as [[model tokenizer]|e1]; cbn [fst snd].
  2: { split_and!; [by eexists|by apply Hfirst|done]. }
  pose proof (wrap_model_events
                (fun ev => is_training ev = false ∧ is_remote_fetch ev = false)
                training_args model) as Hwrap.
  destruct (wrap_model training_args model).2 as [wrapped|e2] eqn:Hwrapped; cbn [fst snd].
  2: { split_and!; [by eexists| |].
       - rewrite Forall_app. split; [by apply Hfirst|by apply Hwrap].
       - intros model' tokenizer' wrapped' [= <- <-] Hwrapped'.
         by rewrite Hwrapped in Hwrapped'. }
  rewrite transform_and_split_dict. cbn [fst snd]. split_and!.
  - by eexists.
  - rewrite !Forall_app. split_and!; [by apply Hfirst|by apply Hwrap|..];
      by repeat constructor.
  - intros model' tokenizer' wrapped' [= <- <-] _. split; [done|].
    by rewrite !app_assoc, last_snoc.
Qed.

(** The run of lines 65-78, by the answers of the hub. *)
Lemma load_model_and_tokenizer_run model_args training_args :
  load_model_and_tokenizer w model_args training_args
  = match hub_models w (model_name_or_path model_args) (cache_dir training_args) with
    | Raise e =>
        ([ModelFromPretrained (model_name_or_path model_args) (cache_dir training_args)],
         Raise e)
    | Ok model =>
        ([ModelFromPretrained (model_name_or_path model_args) (cache_dir training_args);
          TokenizerFromPretrained (model_name_or_path model_args)
            (training_model_max_length training_args) (cache_dir training_args)],
         match hub_tokenizers w (model_name_or_path model_args) (cache_dir training_args) with
         | Raise e => Raise e
         | Ok loaded =>
             Ok (model,
                 set_pad_token_id
                   (set_model_max_length loaded (training_model_max_length training_args))
                   (eos_token_id loaded))
         end)
    end.
Proof.
  unfold load_model_and_tokenizer, mbind, run_bind, perform. cbn [fst snd].
  destruct (hub_models w _ _) as [model|e1]; [|done]. cbn [fst snd].
  by destruct (hub_tokenizers w _ _).
Qed.

(** X11: a failed load ends the run where it fails.  When the model cannot
    be loaded the run is that one call and its exception; when the tokenizer
    cannot, the two calls and its exception; when [use_lora] is on and the
    wrapper refuses the model, the four calls so far and its exception.  No
    dataset is touched in any of these runs. *)
Theorem train_ends_at_failed_load (model_args : ModelArguments)
    (data_args : DataArguments) (training_args : TrainingArguments) :
  match hub_models w (model_name_or_path model_args) (cache_dir training_args) with
  | Raise e =>
      train permutation w model_args data_args training_args
      = ([ModelFromPretrained (model_name_or_path model_args) (cache_dir training_args)],
         Raise e)
  | Ok model =>
      match hub_tokenizers w (model_name_or_path model_args) (cache_dir training_args) with
      | Raise e =>
          train permutation w model_args data_args training_args
          = ([ModelFromPretrained (model_name_or_path model_args) (cache_dir training_args);
              TokenizerFromPretrained (model_name_or_path model_args)
                (training_model_max_length training_args) (cache_dir training_args)],
             Raise e)
      | Ok _ =>
          match Peft.get_peft_model model peft_config with
          | Raise e =>
              if use_lora training_args then
                train permutation w model_args data_args training_args
                = ([ModelFromPretrained (model_name_or_path model_args)
                      (cache_dir training_args);
                    TokenizerFromPretrained (model_name_or_path model_args)
                      (training_model_max_length training_args) (cache_dir training_args);
                    EnableInputRequireGrads;
                    GetPeftModel peft_config],
                   Raise e)
              else True
          | Ok _ => True
          end
      end
  end.
Proof.
  rewrite train_unfold, load_model_and_tokenizer_run.
  destruct (hub_models w _ _) as [model|e1]; [|done].
  destruct (hub_tokenizers w _ _) as [loaded|e2]; [|done]. cbn [fst snd].
  destruct (Peft.get_peft_model model peft_config) as [wrapped|e3] eqn:Hpeft; [done|].
  destruct (use_lora training_args) eqn:Hlora; [|done].
  by rewrite (wrap_model_lora _ _ Hlora), Hpeft.
Qed.

End early_ends.

Lemma train_on_dict_without_train_split_witness :
  load_data validation_only_world {| data_path := Some "data" |}
  = ([LoadFromDisk (Some "data")], Ok (ADatasetDict {[ "validation" := demo_dataset 3 ]}))
  ∧ (∃ e, (train reverse_permutation validation_only_world demo_model_args
             {| data_path := Some "data" |} (demo_training_args true)).2 = Raise e)
  ∧ Forall (fun ev => is_training ev = false ∧ is_remote_fetch ev = false)
      (train reverse_permutation validation_only_world demo_model_args
         {| data_path := Some "data" |} (demo_training_args true)).1
  ∧ ∀ model tokenizer wrapped,
      (load_model_and_tokenizer validation_only_world demo_model_args
         (demo_training_args true)).2 = Ok (model, tokenizer) →
      (wrap_model (demo_training_args true) model).2 = Ok wrapped →
      (train reverse_permutation validation_only_world demo_model_args
         {| data_path := Some "data" |} (demo_training_args true)).2 = Raise AttributeError
      ∧ last (train reverse_permutation validation_only_world demo_model_args
                {| data_path := Some "data" |} (demo_training_args true)).1
        = Some (SetTransform (DatasetTransform tokenizer)).
Proof.
  apply (train_on_dict_without_train_split reverse_permutation validation_only_world
           demo_model_args {| data_path := Some "data" |} (demo_training_args true)
           {[ "validation" := demo_dataset 3 ]}).
  - reflexivity.
  - vm_compute. reflexivity.
Defined.

(** ** The transform over the store *)

Lemma demo_store_wf : Store.wf demo_store.
Proof.
  intros a [x Hx]. cbn in *.
  apply lookup_insert_Some in Hx as [[<- _]|[_ Hx]]; [lia|].
  apply lookup_insert_Some in Hx as [[<- _]|[_ Hx]]; [lia|].
  by rewrite lookup_empty in Hx.
Qed.

(** X12: lines 49-58 change no tensor of the tokenizer.  On a store where
    the ids and the mask are objects, the lines either raise as
    [label_outputs] does on the two tensors, or return a dict that names the
    two objects themselves and one new object for the labels; every object
    that was in the store is as it was, and the new object holds the labels
    that [label_outputs] computes. *)
Theorem label_outputs_in_place_keeps_the_outputs (ids mask : nat) (s : Store.store)
    (x m : Tensor.t) :
  Store.wf s → Store.heap s !! ids = Some x → Store.heap s !! mask = Some m →
  match Store.label_outputs_in_place ids mask s,
        label_outputs {| TokenizerCall.input_ids := x; TokenizerCall.attention_mask := m |} with
  | Ok (out, s'), Ok values =>
      out !! "input_ids" = Some ids ∧ out !! "attention_mask" = Some mask
      ∧ out !! "labels" = Some (Store.next s)
      ∧ Store.heap s !! Store.next s = None
      ∧ (∀ a, a ≠ Store.next s → Store.heap s' !! a = Store.heap s !! a)
      ∧ Store.heap s' !! Store.next s = values !! "labels"
      ∧ values !! "input_ids" = Some x ∧ values !! "attention_mask" = Some m
      ∧ Store.wf s'
  | Raise e, Raise e' => e = e'
  | _, _ => False
  end.
Proof.
  intros Hwf Hids Hmask.
  assert (Store.heap s !! Store.next s = None) as Hfresh.
  { destruct (Store.heap s !! Store.next s) eqn:Hnext; [|done].
    assert (Store.next s < Store.next s) by (apply Hwf; eauto). lia. }
  assert (mask ≠ Store.next s) as Hne by (by intros ->; rewrite Hfresh in Hmask).
  unfold Store.label_outputs_in_place, Store.clone, Store.read, Store.alloc,
    Store.assign_where_zero, label_outputs, Tensor.clone.
  rewrite Hids. cbn [mbind result_bind Store.heap Store.next Store.read].
  unfold Store.read. cbn [Store.heap].
  rewrite lookup_insert_eq, (lookup_insert_ne _ _ _ _ (not_eq_sym Hne)), Hmask.
  cbn [mbind result_bind TokenizerCall.input_ids TokenizerCall.attention_mask].
  destruct (Tensor.masked_assign x (Tensor.eq_scalar m 0) IGNORE_INDEX) as [labels|e]; cbn;
    [|done].
  destruct (transform_dict_lookups x m labels) as (Hx & Hm & Hlabels).
  split_and!; [by simplify_map_eq..| | | | | |].
  - done.
  - intros a Ha. by rewrite !lookup_insert_ne by done.
  - by rewrite lookup_insert_eq, Hlabels.
  - done.
  - done.
  - intros a [y Hy]. cbn in *.
    apply lookup_insert_Some in Hy as [[<- _]|[_ Hy]]; [lia|].
    apply lookup_insert_Some in Hy as [[<- _]|[_ Hy]]; [lia|].
    assert (a < Store.next s) by (apply Hwf; eauto). lia.
Qed.

Lemma label_outputs_in_place_keeps_the_outputs_witness :
  match Store.label_outputs_in_place 0 1 demo_store,
        label_outputs {| TokenizerCall.input_ids := [[1; 97; 98]; [1; 99; 2]; [1; 2; 2]]%Z;
                         TokenizerCall.attention_mask := [[1; 1; 1]; [1; 1; 0]; [1; 0; 0]]%Z |}
  with
  | Ok (out, s'), Ok values =>
      out !! "input_ids" = Some 0 ∧ out !! "attention_mask" = Some 1
      ∧ out !! "labels" = Some (Store.next demo_store)
      ∧ Store.heap demo_store !! Store.next demo_store = None
      ∧ (∀ a, a ≠ Store.next demo_store → Store.heap s' !! a = Store.heap demo_store !! a)
      ∧ Store.heap s' !! Store.next demo_store = values !! "labels"
      ∧ values !! "input_ids" = Some [[1; 97; 98]; [1; 99; 2]; [1; 2; 2]]%Z
      ∧ values !! "attention_mask" = Some [[1; 1; 1]; [1; 1; 0]; [1; 0; 0]]%Z
      ∧ Store.wf s'
  | Raise e, Raise e' => e = e'
  | _, _ => False
  end.
Proof.
  apply (label_outputs_in_place_keeps_the_outputs 0 1 demo_store).
  - exact demo_store_wf.
  - reflexivity.
  - reflexivity.
Defined.

(** Without the clone the assignment would reach the ids of the tokenizer:
    the object at address 0 would end up holding the labels. *)
Example label_outputs_aliased_overwrites_ids :
  match Store.label_outputs_aliased 0 1 demo_store with
  | Ok (out, s') =>
      out !! "labels" = Some 0
      ∧ Store.heap s' !! 0 = Some [[1; 97; 98]; [1; 99; -100]; [1; -100; -100]]%Z
  | Raise _ => False
  end.
Proof. vm_compute. split; reflexivity. Qed.

(** ** Lines 49-58 on tensors of given shapes *)

Lemma has_shape_lengths r c (x : Tensor.t) :
  has_shape r c x → length <$> x = replicate r c.
Proof.
  intros [<- Hrows]. induction Hrows as [|row x Hrow _ IH]; [done|].
  cbn. by rewrite Hrow, IH.
Qed.

Lemma has_shape_of_lengths r c (x y : Tensor.t) :
  has_shape r c x → length <$> y = length <$> x → has_shape r c y.
Proof.
  intros Hx Hlengths. rewrite (has_shape_lengths _ _ _ Hx) in Hlengths. split.
  - apply (f_equal length) in Hlengths. by rewrite length_fmap, length_replicate in Hlengths.
  - apply Forall_forall. intros row Hrow.
    assert (length row ∈ length <$> y) as Hin by (by apply list_elem_of_fmap_2).
    rewrite Hlengths in Hin. by apply elem_of_replicate in Hin as [? _].
Qed.

(** X1: on ids of shape (r, c) and a mask of shape (r', c'), one of them at
    least with a row, lines 49-58 return a dict exactly when the two shapes
    are the same and raise [IndexError] otherwise.  The dict holds the ids
    and the mask as they came, and labels of the shape of the ids: at each
    position -100 when the mask there is 0 and the id otherwise. *)
Theorem label_outputs_positions (outputs : TokenizerCall.BatchEncoding) (r c r' c' : nat) :
  has_shape r c (TokenizerCall.input_ids outputs) →
  has_shape r' c' (TokenizerCall.attention_mask outputs) →
  0 < r ∨ 0 < r' →
  match label_outputs outputs with
  | Ok out =>
      r = r' ∧ c = c'
      ∧ out !! "input_ids" = Some (TokenizerCall.input_ids outputs)
      ∧ out !! "attention_mask" = Some (TokenizerCall.attention_mask outputs)
      ∧ ∃ labels,
          out !! "labels" = Some labels
          ∧ has_shape r c labels
          ∧ ∀ i j a, Tensor.at2 (TokenizerCall.input_ids outputs) i j = Some a →
              ∃ m, Tensor.at2 (TokenizerCall.attention_mask outputs) i j = Some m
                ∧ Tensor.at2 labels i j
                  = Some (if bool_decide (m = 0%Z) then IGNORE_INDEX else a)
  | Raise e => e = IndexError ∧ (r ≠ r' ∨ c ≠ c')
  end.
Proof.
  intros Hids Hmask Hrow.
  pose proof (label_outputs_cases outputs) as Hcases.
  pose proof (has_shape_lengths _ _ _ Hids) as Hlids.
  pose proof (has_shape_lengths _ _ _ Hmask) as Hlmask.
  destruct (label_outputs outputs) as [out|e].
  - destruct Hcases as (Hshape & Hout_ids & Hout_mask & labels & Hlabels & Hlengths & Hpos).
    rewrite Hlids, Hlmask in Hshape.
    assert (r = r') as <-.
    { apply (f_equal length) in Hshape. by rewrite !length_replicate in Hshape. }
    assert (c = c') as <-.
    { assert (0 < r) as Hr by (by destruct Hrow).
      apply (f_equal (.!! 0)) in Hshape.
      rewrite !lookup_replicate_2 in Hshape by done. by injection Hshape. }
    split_and!; [done..|]. exists labels. split_and!; [done| |done].
    exact (has_shape_of_lengths _ _ _ _ Hids Hlengths).
  - destruct Hcases as [-> Hdiffer]. split; [done|].
    destruct (decide (r = r')) as [<-|]; [|by left].
    destruct (decide (c = c')) as [<-|]; [|by right].
    by rewrite Hlids, Hlmask in Hdiffer.
Qed.

Lemma label_outputs_positions_witness :
  match label_outputs
          {| TokenizerCall.input_ids := [[1; 97; 98]; [1; 99; 2]; [1; 2; 2]]%Z;
             TokenizerCall.attention_mask := [[1; 1; 1]; [1; 1; 0]; [1; 0; 0]]%Z |} with
  | Ok out =>
      3 = 3 ∧ 3 = 3
      ∧ out !! "input_ids" = Some [[1; 97; 98]; [1; 99; 2]; [1; 2; 2]]%Z
      ∧ out !! "attention_mask" = Some [[1; 1; 1]; [1; 1; 0]; [1; 0; 0]]%Z
      ∧ ∃ labels,
          out !! "labels" = Some labels
          ∧ has_shape 3 3 labels
          ∧ ∀ i j a, Tensor.at2 [[1; 97; 98]; [1; 99; 2]; [1; 2; 2]]%Z i j = Some a →
              ∃ m, Tensor.at2 [[1; 1; 1]; [1; 1; 0]; [1; 0; 0]]%Z i j = Some m
                ∧ Tensor.at2 labels i j
                  = Some (if bool_decide (m = 0%Z) then IGNORE_INDEX else a)
  | Raise e => e = IndexError ∧ (3 ≠ 3 ∨ 3 ≠ 3)
  end.
Proof.
  apply (label_outputs_positions
           {| TokenizerCall.input_ids := [[1; 97; 98]; [1; 99; 2]; [1; 2; 2]]%Z;
              TokenizerCall.attention_mask := [[1; 1; 1]; [1; 1; 0]; [1; 0; 0]]%Z |}
           3 3 3 3).
  - split; [reflexivity|]. by repeat constructor.
  - split; [reflexivity|]. by repeat constructor.
  - left. lia.
Defined.

(** A mask of another width, or of fewer rows, is refused. *)
Example label_outputs_shape_mismatch :
  label_outputs {| TokenizerCall.input_ids := [[1; 97]; [1; 2]]%Z;
                   TokenizerCall.attention_mask := [[1; 1; 1]; [1; 0; 0]]%Z |}
  = Raise IndexError
  ∧ label_outputs {| TokenizerCall.input_ids := [[1; 97]; [1; 2]]%Z;
                     TokenizerCall.attention_mask := [[1; 1]]%Z |}
    = Raise IndexError.
Proof. split; reflexivity. Qed.
